(** * SmartTodoAI: the task back end and its suggestion engine

    A shallow embedding of [tasks/models.py], [tasks/ai_module.py],
    [tasks/serializers.py] and [tasks/views.py], followed by the properties
    of the specification that were checked against it.

    Modelling conventions.
    - Python [str] values are [string]s of ASCII characters; [lower], [strip]
      and the [in] substring test are written out below.
    - A [float] is a [pyfloat]: a rational, an infinity or nan.  A float
      literal of the code is the decimal it is written as ([0.9] is
      [9 # 10]); the arithmetic of the statistics ([/], [*], [round])
      rounds to the nearest double as IEEE 754 binary64 does.
    - [datetime] values are seconds on a time line ([Z]); [timedelta(days=n)]
      is [n * 86400].  One request reads the clock once ([now]).
    - Library functions whose text is not part of the repository
      ([float()], [datetime.strptime], [json.loads], the HTTP client and the
      string coercion Django applies to a [CharField]) are parameters of the
      sections that use them.
    - A function that can raise returns an [outcome]. *)

From Stdlib Require Import ZArith QArith Qround String Ascii List Bool Lia Arith.
From Stdlib Require Import DecimalString Lqa Sorted Permutation Qabs Qpower.
Import ListNotations.

Close Scope Q_scope.
Open Scope list_scope.
Open Scope string_scope.

(** ** Python strings *)

Module PyStr.

Definition is_upper (c : ascii) : bool :=
  let n := nat_of_ascii c in ((65 <=? n) && (n <=? 90))%nat.

Definition lower_char (c : ascii) : ascii :=
  if is_upper c then ascii_of_nat (nat_of_ascii c + 32) else c.

(** [s.lower()] *)
Fixpoint lower (s : string) : string :=
  match s with
  | EmptyString => EmptyString
  | String c s' => String (lower_char c) (lower s')
  end.

(** [c.isspace()] on ASCII: tab, LF, VT, FF, CR, FS, GS, RS, US, space. *)
Definition is_space (c : ascii) : bool :=
  let n := nat_of_ascii c in
  (((9 <=? n) && (n <=? 13)) || ((28 <=? n) && (n <=? 32)))%nat.

Fixpoint lstrip (s : string) : string :=
  match s with
  | EmptyString => EmptyString
  | String c s' => if is_space c then lstrip s' else s
  end.

Fixpoint rstrip (s : string) : string :=
  match s with
  | EmptyString => EmptyString
  | String c s' =>
      match rstrip s' with
      | EmptyString => if is_space c then EmptyString else String c EmptyString
      | r => String c r
      end
  end.

(** [s.strip()] *)
Definition strip (s : string) : string := rstrip (lstrip s).

(** Truth value of a string: [if s:] *)
Definition truthy (s : string) : bool :=
  match s with EmptyString => false | _ => true end.

(** [w in s] for strings: [w] occurs in [s] as a contiguous substring. *)
Fixpoint contains (w s : string) : bool :=
  String.prefix w s ||
  match s with
  | EmptyString => false
  | String _ s' => contains w s'
  end.

(** [sep.join(l)] *)
Fixpoint join (sep : string) (l : list string) : string :=
  match l with
  | [] => ""
  | [x] => x
  | x :: rest => x ++ sep ++ join sep rest
  end.

(** The [{x}] of an f-string on an optional string: [None] prints as
    the text None. *)
Definition fmt (o : option string) : string :=
  match o with Some s => s | None => "None" end.

(** The declarative reading of [w in s]. *)
Definition Occurs (w s : string) : Prop :=
  exists p q : string, s = p ++ w ++ q.

End PyStr.
Import PyStr.

(** ** Outcomes of code that can raise *)

Inductive exn : Type :=
| ValidationError (msg : string)
| AttributeError
| TypeError
| ZeroDivisionError
| IntegrityError
| Http404.

Inductive outcome (A : Type) : Type :=
| Returned (a : A)
| Raised (e : exn).
Arguments Returned {A} a.
Arguments Raised {A} e.

Definition bind {A B : Type} (m : outcome A) (k : A -> outcome B) : outcome B :=
  match m with
  | Returned a => k a
  | Raised e => Raised e
  end.

Notation "x <- m ;; k" := (bind m (fun x => k))
  (at level 61, m at next level, right associativity).

(** ** The fallback heuristics of [ai_module.py] *)

Module Fallback.

(** [sum(1 for word in urgency_words if word in text)] *)
Definition urgency_count (urgency_words : list string) (text : string) : nat :=
  length (filter (fun word => contains word text) urgency_words).

Definition priority_urgency_words : list string :=
  ["urgent"; "asap"; "immediately"; "deadline"; "due"; "important";
   "critical"; "emergency"].

(** The text [_fallback_priority_calculation] searches:
    [f"{title} {description}".lower()] *)
Definition priority_text (title : string) (description : option string) : string :=
  lower (title ++ " " ++ fmt description).

Definition _fallback_priority_calculation
    (title : string) (description : option string) : Q :=
  let text := priority_text title description in
  let urgency_count := urgency_count priority_urgency_words text in
  if (2 <=? urgency_count)%nat then (9 # 10)%Q
  else if (urgency_count =? 1)%nat then (7 # 10)%Q
  else (5 # 10)%Q.

Definition SECONDS_PER_DAY : Z := 86400.

(** [timedelta(days=n)] *)
Definition timedelta_days (n : Z) : Z := (n * SECONDS_PER_DAY)%Z.

Definition _fallback_deadline_suggestion
    (now : Z) (title : string) (workload : Z) : option Z :=
  let days_to_add := Z.min (workload + 1) 7 in
  Some (now + timedelta_days days_to_add)%Z.

Definition work_words : list string := ["work"; "job"; "office"; "meeting"; "project"].
Definition home_words : list string := ["home"; "house"; "clean"; "cook"; "garden"].
Definition health_words : list string := ["health"; "exercise"; "gym"; "doctor"; "medical"].
Definition learning_words : list string := ["learn"; "study"; "course"; "book"; "read"].

(** [any(word in title_lower for word in words)] *)
Definition any_in (words : list string) (title_lower : string) : bool :=
  existsb (fun word => contains word title_lower) words.

Definition _fallback_categorization (title : string) : string * list string :=
  let title_lower := lower title in
  if any_in work_words title_lower then ("Work", ["work"; "professional"])
  else if any_in home_words title_lower then ("Home", ["home"; "household"])
  else if any_in health_words title_lower then ("Health", ["health"; "wellness"])
  else if any_in learning_words title_lower then ("Learning", ["learning"; "education"])
  else ("Personal", ["personal"; "general"]).

Definition _fallback_description_enhancement
    (title : string) (description : option string) : string :=
  match description with
  | Some (String c d) => String c d
  | _ => "Task: " ++ title ++ ". Please add more details as needed."
  end.

End Fallback.

(** ** JSON values, as [json.loads] builds them and [JSONField] stores them *)

Unset Elimination Schemes.
Inductive json : Type :=
| JNull
| JBool (b : bool)
| JNum (x : Q)
| JStr (s : string)
| JArr (l : list json)
| JObj (items : list (string * json)).
Set Elimination Schemes.

Module PyJson.

(** [d.get(key, default)] on the items of a dict. *)
Fixpoint dict_get (key : string) (items : list (string * json)) (default : json) : json :=
  match items with
  | [] => default
  | (k, v) :: rest => if String.eqb k key then v else dict_get key rest default
  end.

(** [x.get(key, default)]: only a dict has the method. *)
Definition get (x : json) (key : string) (default : json) : outcome json :=
  match x with
  | JObj items => Returned (dict_get key items default)
  | _ => Raised AttributeError
  end.

(** Truth value of a JSON value: [if x:] *)
Definition truthy (x : json) : bool :=
  match x with
  | JNull => false
  | JBool b => b
  | JNum q => negb (Qeq_bool q 0)
  | JStr s => PyStr.truthy s
  | JArr l => match l with [] => false | _ => true end
  | JObj items => match items with [] => false | _ => true end
  end.

Definition is_str (s : string) (x : json) : bool :=
  match x with JStr s' => String.eqb s' s | _ => false end.

(** [s in x] for a string [s]: membership in a list, key of a dict,
    substring of a string; the other values are not iterable. *)
Definition str_in (s : string) (x : json) : outcome bool :=
  match x with
  | JArr l => Returned (existsb (is_str s) l)
  | JObj items => Returned (existsb (fun kv => String.eqb (fst kv) s) items)
  | JStr t => Returned (contains s t)
  | _ => Raised TypeError
  end.

Definition strings (l : list string) : json := JArr (map JStr l).

End PyJson.

(** ** The context fallback of [ai_module.py] *)

Module ContextFallback.

(** [\w] on ASCII text: letters, digits and the underscore. *)
Definition is_word_char (c : ascii) : bool :=
  let n := nat_of_ascii c in
  (((48 <=? n) && (n <=? 57)) || ((65 <=? n) && (n <=? 90))
   || ((97 <=? n) && (n <=? 122)) || (n =? 95))%nat.

Definition push_run (run : string) (rest : list string) : list string :=
  match run with EmptyString => rest | _ => run :: rest end.

(** The run of word characters that starts the text, and the maximal
    runs after it. *)
Fixpoint scan (s : string) : string * list string :=
  match s with
  | EmptyString => (EmptyString, [])
  | String c s' =>
      let (run, rest) := scan s' in
      if is_word_char c then (String c run, rest)
      else (EmptyString, push_run run rest)
  end.

Definition word_runs (s : string) : list string :=
  let (run, rest) := scan s in push_run run rest.

(** [re.findall(r'\b\w{4,}\b', s)]: a match starts and ends at a word
    boundary and the repetition is greedy, so the matches are the maximal
    runs of word characters that have at least four of them. *)
Definition findall_words4 (s : string) : list string :=
  filter (fun w => (4 <=? String.length w)%nat) (word_runs s).

Definition stop_words : list string :=
  ["this"; "that"; "with"; "from"; "they"; "have"; "will"; "been"; "were"].

Definition context_urgency_words : list string :=
  ["urgent"; "asap"; "immediately"; "deadline"; "due"; "important"; "critical"].

Definition context_keywords (context_text : string) : list string :=
  let keywords := findall_words4 (lower context_text) in
  filter (fun k => negb (existsb (String.eqb k) stop_words)) keywords.

Definition context_priority (context_text : string) : string :=
  let urgency_score :=
    Fallback.urgency_count context_urgency_words (lower context_text) in
  if (0 <? urgency_score)%nat then "high" else "normal".

Definition _fallback_context_analysis (context_text : string) : json :=
  let keywords := context_keywords context_text in
  JObj [ ("topics", PyJson.strings (firstn 5 keywords));
         ("deadlines", JArr []);
         ("priorities", JArr [JStr (context_priority context_text)]);
         ("sentiment", JStr "neutral");
         ("action_items", JArr []);
         ("keywords", PyJson.strings (firstn 10 keywords)) ].

End ContextFallback.

(** ** Python floats *)

(** What [float(s)] can return and a [FloatField] can be given. *)
Inductive pyfloat : Type :=
| Finite (x : Q)
| Infinite (negative : bool)
| NaN.

Module PyFloat.

(** [v >= x] for a finite [x]; every comparison with nan is false. *)
Definition ge (v : pyfloat) (x : Q) : bool :=
  match v with
  | Finite y => Qle_bool x y
  | Infinite negative => negb negative
  | NaN => false
  end.

End PyFloat.

(** ** [AITaskManager] *)

(** What [requests.post] does with the completion request: it raises (no
    network, time-out after ten seconds), or it answers with a status code.
    [content] is [result['choices'][0]['message']['content']] of the body,
    [None] when the body is not JSON of that shape. *)
Inductive http_result : Type :=
| RequestFailed
| Response (status_code : Z) (content : option string).

(** A row of [ContextEntry.objects...values('content', 'source_type')]. *)
Record context_row : Type := mk_context_row {
  row_content : string;
  row_source_type : string
}.

Module Prompt.

Definition nl : string := String (ascii_of_nat 10) EmptyString.
Definition dq : string := String (ascii_of_nat 34) EmptyString.
Definition indent : string := "            ".

(** A triple-quoted f-string of the module: a line break, the lines at
    the indentation of the method body, and the indentation before the
    closing quotes. *)
Definition block (lines : list string) : string :=
  nl ++ String.concat "" (map (fun l => indent ++ l ++ nl) lines) ++ indent.

Definition string_of_Z (z : Z) : string :=
  DecimalString.NilZero.string_of_int (Z.to_int z).

(** [" ".join([entry.get('content', '') for entry in context_entries])]
    when the list is not empty. *)
Definition context_summary (context_entries : list context_row) : string :=
  match context_entries with
  | [] => ""
  | _ => join " " (map row_content context_entries)
  end.

Definition analyze_context (context_text source_type : string) : string :=
  block [ "Analyze the following " ++ source_type ++ " content and extract:";
          "1. Key topics and themes";
          "2. Important deadlines or time-sensitive information";
          "3. Priority indicators (urgent, important, etc.)";
          "4. Sentiment (positive, negative, neutral)";
          "5. Action items or tasks mentioned";
          "6. Relevant keywords";
          "";
          "Content: " ++ context_text;
          "";
          "Return as JSON with keys: topics, deadlines, priorities, sentiment, action_items, keywords" ].

Definition prioritize_task
    (task_title : string) (task_description : option string)
    (context_entries : list context_row) : string :=
  block [ "Calculate a priority score (0.0 to 1.0) for this task based on:";
          "- Task title: " ++ task_title;
          "- Task description: " ++ fmt task_description;
          "- Recent context: " ++ context_summary context_entries;
          "";
          "Consider factors like:";
          "- Urgency indicators (deadline, urgent, ASAP, etc.)";
          "- Importance keywords (critical, important, must, etc.)";
          "- Context relevance";
          "- Time sensitivity";
          "";
          "Return only the numeric score (0.0 to 1.0)." ].

Definition suggest_deadline
    (task_title : string) (task_description : option string)
    (current_workload : Z) : string :=
  block [ "Suggest a realistic deadline for this task:";
          "- Task: " ++ task_title;
          "- Description: " ++ fmt task_description;
          "- Current workload: " ++ string_of_Z current_workload ++ " tasks";
          "";
          "Consider:";
          "- Task complexity and scope";
          "- Current workload";
          "- Typical completion times for similar tasks";
          "- Buffer time for unexpected issues";
          "";
          "Return the suggested deadline in format: YYYY-MM-DD HH:MM";
          "If no specific deadline needed, return " ++ dq ++ "None" ++ dq ].

Definition suggest_categories_and_tags
    (task_title : string) (task_description : option string) : string :=
  block [ "Suggest a category and tags for this task:";
          "- Task: " ++ task_title;
          "- Description: " ++ fmt task_description;
          "";
          "Return as JSON: {" ++ dq ++ "category" ++ dq ++ ": " ++ dq
            ++ "category_name" ++ dq ++ ", " ++ dq ++ "tags" ++ dq ++ ": ["
            ++ dq ++ "tag1" ++ dq ++ ", " ++ dq ++ "tag2" ++ dq ++ ", "
            ++ dq ++ "tag3" ++ dq ++ "]}";
          "";
          "Common categories: Work, Personal, Health, Finance, Learning, Home, Social" ].

Definition enhance_task_description
    (task_title : string) (task_description : option string)
    (context_entries : list context_row) : string :=
  block [ "Enhance this task description with relevant context and details:";
          "- Original title: " ++ task_title;
          "- Original description: " ++ fmt task_description;
          "- Context: " ++ context_summary context_entries;
          "";
          "Provide an enhanced description that:";
          "- Includes relevant context";
          "- Adds specific details and requirements";
          "- Mentions related deadlines or dependencies";
          "- Suggests approach or steps";
          "";
          "Return only the enhanced description." ].

End Prompt.

Section AITaskManager.

(** [settings.OPENAI_API_KEY], when the settings define it. *)
Variable api_key : option string.
(** The completion service: the request made with a key and a prompt. *)
Variable post : string -> string -> http_result.
(** [float(s)], [None] for [ValueError]. *)
Variable py_float : string -> option pyfloat.
(** [datetime.strptime(s, "%Y-%m-%d %H:%M")], [None] for [ValueError]. *)
Variable strptime : string -> option Z.
(** [json.loads(s)], [None] for [JSONDecodeError]. *)
Variable json_loads : string -> option json.
(** [timezone.now()] *)
Variable now : Z.

Definition _call_ai_api (prompt : string) : option string :=
  match api_key with
  | None | Some EmptyString => None
  | Some key =>
      match post key prompt with
      | RequestFailed => None
      | Response status_code content =>
          if (status_code =? 200)%Z then content else None
      end
  end.

Definition analyze_context (context_text source_type : string) : json :=
  let prompt := Prompt.analyze_context context_text source_type in
  match _call_ai_api prompt with
  | Some (String c r) =>
      match json_loads (String c r) with
      | Some result => result
      | None => ContextFallback._fallback_context_analysis context_text
      end
  | _ => ContextFallback._fallback_context_analysis context_text
  end.

Definition prioritize_task
    (task_title : string) (task_description : option string)
    (context_entries : list context_row) : pyfloat :=
  let prompt := Prompt.prioritize_task task_title task_description context_entries in
  match _call_ai_api prompt with
  | Some (String c r) =>
      match py_float (strip (String c r)) with
      | Some score => score
      | None =>
          Finite (Fallback._fallback_priority_calculation task_title task_description)
      end
  | _ => Finite (Fallback._fallback_priority_calculation task_title task_description)
  end.

Definition suggest_deadline
    (task_title : string) (task_description : option string)
    (current_workload : Z) : option Z :=
  let prompt := Prompt.suggest_deadline task_title task_description current_workload in
  match _call_ai_api prompt with
  | Some response =>
      if PyStr.truthy response && negb (String.eqb (lower (strip response)) "none")
      then
        match strptime (strip response) with
        | Some deadline => Some deadline
        | None => Fallback._fallback_deadline_suggestion now task_title current_workload
        end
      else None
  | None => None
  end.

Definition suggest_categories_and_tags
    (task_title : string) (task_description : option string) : json * json :=
  let prompt := Prompt.suggest_categories_and_tags task_title task_description in
  let fallback :=
    let (category, tags) := Fallback._fallback_categorization task_title in
    (JStr category, PyJson.strings tags) in
  match _call_ai_api prompt with
  | Some (String c r) =>
      match json_loads (String c r) with
      | Some result =>
          match PyJson.get result "category" (JStr "General"),
                PyJson.get result "tags" (JArr []) with
          | Returned category, Returned tags => (category, tags)
          | _, _ => fallback
          end
      | None => fallback
      end
  | _ => fallback
  end.

Definition enhance_task_description
    (task_title : string) (task_description : option string)
    (context_entries : list context_row) : string :=
  let prompt :=
    Prompt.enhance_task_description task_title task_description context_entries in
  match _call_ai_api prompt with
  | Some (String c r) => strip (String c r)
  | _ => Fallback._fallback_description_enhancement task_title task_description
  end.

End AITaskManager.

(** ** [models.py] *)

Inductive Status : Type := pending | in_progress | completed | cancelled.
Inductive Priority : Type := low | medium | high | urgent.

Definition Status_eqb (a b : Status) : bool :=
  match a, b with
  | pending, pending | in_progress, in_progress
  | completed, completed | cancelled, cancelled => true
  | _, _ => false
  end.

Module Category.
Record t : Type := make {
  pk : nat;
  name : string;
  color : string;
  usage_frequency : Z;
  created_at : Z;
  updated_at : Z
}.
End Category.

Module ContextEntry.
Record t : Type := make {
  pk : nat;
  user : nat;
  content : string;
  source_type : string;
  source_title : option string;
  processed_insights : json;
  priority_score : Q;
  keywords : json;
  sentiment_score : Q;
  created_at : Z;
  updated_at : Z
}.
End ContextEntry.

Module Task.
Record t : Type := make {
  pk : nat;
  title : string;
  description : option string;
  status : Status;
  priority : Priority;
  priority_score : pyfloat;
  due_date : option Z;
  suggested_deadline : option Z;
  category : option nat;
  tags : json;
  ai_enhanced_description : option string;
  context_references : list nat;
  created_at : Z;
  updated_at : Z;
  completed_at : option Z;
  user : nat
}.

Definition with_status (s : Status) (x : t) : t :=
  make (pk x) (title x) (description x) s (priority x) (priority_score x)
       (due_date x) (suggested_deadline x) (category x) (tags x)
       (ai_enhanced_description x) (context_references x) (created_at x)
       (updated_at x) (completed_at x) (user x).

Definition with_updated_at (u : Z) (x : t) : t :=
  make (pk x) (title x) (description x) (status x) (priority x) (priority_score x)
       (due_date x) (suggested_deadline x) (category x) (tags x)
       (ai_enhanced_description x) (context_references x) (created_at x)
       u (completed_at x) (user x).

Definition with_completed_at (c : option Z) (x : t) : t :=
  make (pk x) (title x) (description x) (status x) (priority x) (priority_score x)
       (due_date x) (suggested_deadline x) (category x) (tags x)
       (ai_enhanced_description x) (context_references x) (created_at x)
       (updated_at x) c (user x).

(** The invariant of the data model: [completed_at] is set exactly when
    the status is [completed]. *)
Definition completed_at_invariant (x : t) : Prop :=
  completed_at x <> None <-> status x = completed.
End Task.

(** The tables of the relational store. *)
Record DB : Type := mk_DB {
  tasks : list Task.t;
  categories : list Category.t;
  context_entries : list ContextEntry.t
}.

Module Store.

Definition fresh (pks : list nat) : nat := S (fold_right Nat.max 0 pks).

(** [instance.save()] of a stored task: [auto_now] stamps [updated_at]
    and the row with the same key is replaced. *)
Definition stamp (now : Z) (x : Task.t) : Task.t := Task.with_updated_at now x.

Definition replace_task (x : Task.t) (l : list Task.t) : list Task.t :=
  map (fun y => if (Task.pk y =? Task.pk x)%nat then x else y) l.

Definition save_task (now : Z) (x : Task.t) (db : DB) : DB * Task.t :=
  let x' := stamp now x in
  (mk_DB (replace_task x' (tasks db)) (categories db) (context_entries db), x').

Definition replace_entry (x : ContextEntry.t) (l : list ContextEntry.t)
    : list ContextEntry.t :=
  map (fun y => if (ContextEntry.pk y =? ContextEntry.pk x)%nat then x else y) l.

(** [Category.objects.get_or_create(name=name, defaults={'color': color})] *)
Definition get_or_create_category (now : Z) (name color : string) (db : DB)
    : DB * Category.t :=
  match find (fun c => String.eqb (Category.name c) name) (categories db) with
  | Some c => (db, c)
  | None =>
      let c := Category.make (fresh (map Category.pk (categories db)))
                             name color 0%Z now now in
      (mk_DB (tasks db) (categories db ++ [c])%list (context_entries db), c)
  end.

Fixpoint insert_by_created_at (x : ContextEntry.t) (l : list ContextEntry.t)
    : list ContextEntry.t :=
  match l with
  | [] => [x]
  | y :: rest =>
      if (ContextEntry.created_at y <? ContextEntry.created_at x)%Z
      then x :: l
      else y :: insert_by_created_at x rest
  end.

(** [ordering = ['-created_at']] of [ContextEntry.Meta]. *)
Definition newest_first (l : list ContextEntry.t) : list ContextEntry.t :=
  fold_right insert_by_created_at [] l.

(** [ContextEntry.objects.filter(user=user,
      created_at__gte=now - timedelta(days=7)).values('content', 'source_type')[:10]] *)
Definition recent_context (now : Z) (user : nat) (db : DB) : list context_row :=
  let since := (now - Fallback.timedelta_days 7)%Z in
  let rows :=
    filter (fun e => (ContextEntry.user e =? user)%nat
                     && (since <=? ContextEntry.created_at e)%Z)
           (newest_first (context_entries db)) in
  map (fun e => mk_context_row (ContextEntry.content e) (ContextEntry.source_type e))
      (firstn 10 rows).

(** [Task.objects.filter(user=user, status='pending').count()] *)
Definition pending_count (user : nat) (db : DB) : Z :=
  Z.of_nat (length (filter (fun x => (Task.user x =? user)%nat
                                     && Status_eqb (Task.status x) pending)
                           (tasks db))).

End Store.

(** ** [serializers.py] *)

(** A key of [validated_data]: absent, or present with a value. *)
Inductive field (A : Type) : Type :=
| Absent
| Given (a : A).
Arguments Absent {A}.
Arguments Given {A} a.

Definition field_get {A : Type} (f : field A) (default : A) : A :=
  match f with Given a => a | Absent => default end.

Module TaskSerializer.

Definition validate_title (value : string) : outcome string :=
  match strip value with
  | EmptyString => Raised (ValidationError "Title cannot be empty.")
  | s => Returned s
  end.

Definition validate_due_date (now : Z) (value : option Z) : outcome (option Z) :=
  match value with
  | Some d =>
      if (d <? now)%Z then Raised (ValidationError "Due date cannot be in the past.")
      else Returned value
  | None => Returned value
  end.

(** The writable fields of the serializer, as [validated_data] holds
    them on an update. *)
Record validated : Type := mk_validated {
  new_title : field string;
  new_description : field (option string);
  new_status : field Status;
  new_priority : field Priority;
  new_due_date : field (option Z);
  new_user_id : field nat
}.

(** The [completed_at] entry the override adds to [validated_data]. *)
Definition completed_at_entry (now : Z) (validated_data : validated)
    : field (option Z) :=
  match new_status validated_data with
  | Given completed => Given (Some now)
  | Given _ => Given None
  | Absent => Absent
  end.

(** [update]: the override, then [ModelSerializer.update], which sets
    every attribute of [validated_data] and saves the instance. *)
Definition update (now : Z) (instance : Task.t) (validated_data : validated)
    (db : DB) : DB * Task.t :=
  let completed_at := completed_at_entry now validated_data in
  let instance' :=
    Task.make (Task.pk instance)
      (field_get (new_title validated_data) (Task.title instance))
      (field_get (new_description validated_data) (Task.description instance))
      (field_get (new_status validated_data) (Task.status instance))
      (field_get (new_priority validated_data) (Task.priority instance))
      (Task.priority_score instance)
      (field_get (new_due_date validated_data) (Task.due_date instance))
      (Task.suggested_deadline instance)
      (Task.category instance)
      (Task.tags instance)
      (Task.ai_enhanced_description instance)
      (Task.context_references instance)
      (Task.created_at instance)
      (Task.updated_at instance)
      (field_get completed_at (Task.completed_at instance))
      (field_get (new_user_id validated_data) (Task.user instance)) in
  Store.save_task now instance' db.

End TaskSerializer.

Module TaskCreateSerializer.

Definition validate_title (value : string) : outcome string :=
  match strip value with
  | EmptyString => Raised (ValidationError "Title cannot be empty.")
  | s => Returned s
  end.

(** [fields = ['title', 'description', 'priority', 'due_date', 'category']] *)
Record validated : Type := mk_validated {
  title : string;
  description : field (option string);
  priority : field Priority;
  due_date : field (option Z);
  category : field (option nat)
}.

Section Create.

Variable api_key : option string.
Variable post : string -> string -> http_result.
Variable py_float : string -> option pyfloat.
Variable strptime : string -> option Z.
Variable json_loads : string -> option json.
(** [str(value)] of a value that is not a string. *)
Variable py_str : json -> string.
Variable now : Z.

(** [CharField.to_python]: a string as it is, [str(value)] otherwise. *)
Definition to_python (value : json) : string :=
  match value with
  | JStr s => s
  | _ => py_str value
  end.

(** [request] is the user of the request in the serializer context,
    when the context has a request.  The table stores no nan: the insert
    of a task whose score is nan violates the NOT NULL constraint of the
    column and raises [IntegrityError]; what the store holds after a raise
    is not described. *)
Definition create (request : option nat) (validated_data : validated) (db : DB)
    : outcome (DB * Task.t) :=
  match request with
  | None => Raised (ValidationError "User is required.")
  | Some user =>
      let recent_context := Store.recent_context now user db in
      let title := title validated_data in
      let description := field_get (description validated_data) (Some "") in
      let priority_score :=
        prioritize_task api_key post py_float title description recent_context in
      let current_workload := Store.pending_count user db in
      let suggested_deadline :=
        suggest_deadline api_key post strptime now title description current_workload in
      let (category_name, tags) :=
        suggest_categories_and_tags api_key post json_loads title description in
      let '(db1, category, tags) :=
        if PyJson.truthy category_name then
          let (db1, c) :=
            Store.get_or_create_category now (to_python category_name) "#3B82F6" db in
          (db1, Some (Category.pk c), tags)
        else (db, field_get (category validated_data) None, JArr []) in
      let enhanced_description :=
        enhance_task_description api_key post title description recent_context in
      let task :=
        Task.make (Store.fresh (map Task.pk (tasks db1)))
          title
          (field_get (TaskCreateSerializer.description validated_data) None)
          pending
          (field_get (priority validated_data) medium)
          priority_score
          (field_get (due_date validated_data) None)
          suggested_deadline
          category
          tags
          (Some enhanced_description)
          []
          now now None user in
      match priority_score with
      | NaN => Raised IntegrityError
      | _ => Returned (mk_DB (tasks db1 ++ [task])%list (categories db1)
                             (context_entries db1), task)
      end
  end.

End Create.

End TaskCreateSerializer.

(** ** [views.py] *)

Module Stats.
Record t : Type := make {
  total : nat;
  completed : nat;
  pending : nat;
  in_progress : nat;
  high_priority : nat;
  overdue : nat;
  completion_rate : Q
}.
End Stats.

Module PyNum.

(** The integer nearest to [q], a tie going to the even one. *)
Definition round_half_even (q : Q) : Z :=
  let f := Qfloor q in
  match (q - inject_Z f ?= 1 # 2)%Q with
  | Lt => f
  | Gt => (f + 1)%Z
  | Eq => if Z.even f then f else (f + 1)%Z
  end.

(** The binary place of the last digit of the double nearest to [q]: 52
    places below the leading digit, and never below 2 ^ -1074. *)
Definition ulp_exponent (q : Q) : Z :=
  (Z.max (Z.log2 (Qfloor (Qabs q * 2 ^ 1074)%Q) - 52) 0 - 1074)%Z.

(** The double nearest to [q], a tie going to the even significand
    (binary64, for magnitudes below 2 ^ 1024). *)
Definition to_double (q : Q) : Q :=
  let e := ulp_exponent q in
  (inject_Z (round_half_even (q * 2 ^ (- e))) * 2 ^ e)%Q.

(** [a / b] on two counts: the double nearest to the quotient. *)
Definition truediv (a b : nat) : outcome Q :=
  match b with
  | O => Raised ZeroDivisionError
  | S _ => Returned (to_double (inject_Z (Z.of_nat a) / inject_Z (Z.of_nat b)))
  end.

(** [x * y] on two doubles. *)
Definition mul (x y : Q) : Q := to_double (x * y).

(** [round(x, 1)]: the decimal with one digit after the point nearest to
    the double [x], a tie going to the even digit, read back as a
    double. *)
Definition round1 (x : Q) : Q :=
  to_double (inject_Z (round_half_even (x * 10)) / 10).

End PyNum.

Module TaskViewSet.

(** [Task.objects.filter(user=self.request.user)] *)
Definition get_queryset (user : nat) (db : DB) : list Task.t :=
  filter (fun x => (Task.user x =? user)%nat) (tasks db).

(** [self.get_object()]: the task of the queryset with that key. *)
Definition get_object (user pk : nat) (db : DB) : outcome Task.t :=
  match find (fun x => (Task.pk x =? pk)%nat) (get_queryset user db) with
  | Some x => Returned x
  | None => Raised Http404
  end.

(** The assignment to [task.status] in [toggle_status]. *)
Definition toggled (task : Task.t) : Task.t :=
  match Task.status task with
  | pending => Task.with_status completed task
  | completed => Task.with_status pending task
  | _ => task
  end.

Definition toggle_status (now : Z) (user pk : nat) (db : DB)
    : outcome (DB * Task.t) :=
  task <- get_object user pk db ;;
  Returned (Store.save_task now (toggled task) db).

Definition count (p : Task.t -> bool) (queryset : list Task.t) : nat :=
  length (filter p queryset).

Definition is_overdue (now : Z) (x : Task.t) : bool :=
  match Task.due_date x with
  | Some d => (d <? now)%Z
  | None => false
  end
  && (Status_eqb (Task.status x) pending || Status_eqb (Task.status x) in_progress).

Definition stats (now : Z) (user : nat) (db : DB) : outcome Stats.t :=
  let queryset := get_queryset user db in
  let total_tasks := length queryset in
  let completed_tasks := count (fun x => Status_eqb (Task.status x) completed) queryset in
  let pending_tasks := count (fun x => Status_eqb (Task.status x) pending) queryset in
  let in_progress_tasks :=
    count (fun x => Status_eqb (Task.status x) in_progress) queryset in
  let high_priority_tasks :=
    count (fun x => PyFloat.ge (Task.priority_score x) (7 # 10)) queryset in
  let overdue_tasks := count (is_overdue now) queryset in
  rate <- (if (0 <? total_tasks)%nat
           then q <- PyNum.truediv completed_tasks total_tasks ;;
                Returned (PyNum.mul q 100)
           else Returned 0%Q) ;;
  Returned (Stats.make total_tasks completed_tasks pending_tasks in_progress_tasks
                       high_priority_tasks overdue_tasks (PyNum.round1 rate)).

Definition status_name (s : Status) : string :=
  match s with
  | pending => "pending"
  | in_progress => "in_progress"
  | completed => "completed"
  | cancelled => "cancelled"
  end.

Definition priority_name (p : Priority) : string :=
  match p with
  | low => "low"
  | medium => "medium"
  | high => "high"
  | urgent => "urgent"
  end.

(** [request.query_params]: the parameters [my_tasks] reads. *)
Record query_params : Type := mk_query_params {
  status_param : option string;
  priority_param : option string;
  search_param : option string
}.

(** [queryset.filter(...)] when the parameter is there and not empty. *)
Definition filter_if (param : option string) (p : string -> Task.t -> bool)
    (queryset : list Task.t) : list Task.t :=
  match param with
  | Some (String c r) => filter (p (String c r)) queryset
  | _ => queryset
  end.

(** [title__icontains=search] *)
Definition icontains (search : string) (x : Task.t) : bool :=
  contains (lower search) (lower (Task.title x)).

(** [my_tasks]: the rows of the answer; their order is the one of the
    table here. *)
Definition my_tasks (user : nat) (params : query_params) (db : DB) : list Task.t :=
  let queryset := get_queryset user db in
  let queryset :=
    filter_if (status_param params)
              (fun v x => String.eqb (status_name (Task.status x)) v) queryset in
  let queryset :=
    filter_if (priority_param params)
              (fun v x => String.eqb (priority_name (Task.priority x)) v) queryset in
  filter_if (search_param params) icontains queryset.

End TaskViewSet.

Module ContextEntryViewSet.

(** [fields] of [ContextEntrySerializer] that a client may write. *)
Record validated : Type := mk_validated {
  content : string;
  source_type : field string;
  source_title : field (option string)
}.

Definition _calculate_sentiment_score (sentiment : json) : outcome Q :=
  match sentiment with
  | JStr s =>
      let key := lower s in
      Returned (if String.eqb key "positive" then 8 # 10
                else if String.eqb key "negative" then 2 # 10
                else if String.eqb key "neutral" then 5 # 10
                else 5 # 10)%Q
  | _ => Raised AttributeError
  end.

Definition _calculate_priority_score (analysis : json) : outcome Q :=
  priorities <- PyJson.get analysis "priorities" (JArr []) ;;
  has_high <- PyJson.str_in "high" priorities ;;
  has_urgent <- (if has_high then Returned true
                 else PyJson.str_in "urgent" priorities) ;;
  if has_urgent then Returned (8 # 10)%Q
  else
    has_important <- PyJson.str_in "important" priorities ;;
    if has_important then Returned (6 # 10)%Q else Returned (4 # 10)%Q.

Section PerformCreate.

Variable api_key : option string.
Variable post : string -> string -> http_result.
Variable json_loads : string -> option json.
Variable now : Z.

(** The result is the store after the request and what the handler
    returned or raised: the first [save] has happened by the time the
    insights are read. *)
Definition perform_create (user : nat) (validated_data : validated) (db : DB)
    : DB * outcome ContextEntry.t :=
  let context_entry :=
    ContextEntry.make (Store.fresh (map ContextEntry.pk (context_entries db)))
      user (content validated_data)
      (field_get (source_type validated_data) "notes")
      (field_get (source_title validated_data) None)
      (JObj []) 0%Q (JArr []) 0%Q now now in
  let db1 := mk_DB (tasks db) (categories db)
                   (context_entries db ++ [context_entry])%list in
  let analysis :=
    analyze_context api_key post json_loads
      (ContextEntry.content context_entry)
      (ContextEntry.source_type context_entry) in
  let updated :=
    keywords <- PyJson.get analysis "keywords" (JArr []) ;;
    sentiment <- PyJson.get analysis "sentiment" (JStr "neutral") ;;
    sentiment_score <- _calculate_sentiment_score sentiment ;;
    priority_score <- _calculate_priority_score analysis ;;
    Returned (ContextEntry.make (ContextEntry.pk context_entry)
                user (ContextEntry.content context_entry)
                (ContextEntry.source_type context_entry)
                (ContextEntry.source_title context_entry)
                analysis priority_score keywords sentiment_score
                (ContextEntry.created_at context_entry) now) in
  match updated with
  | Returned entry =>
      (mk_DB (tasks db1) (categories db1)
             (Store.replace_entry entry (context_entries db1)),
       Returned entry)
  | Raised e => (db1, Raised e)
  end.

End PerformCreate.

(** The answer of [ai_suggestions]: the suggestions, or the status 400
    with its error text. *)
Record suggestions : Type := mk_suggestions {
  priority_score : pyfloat;
  suggested_deadline : option Z;
  category : json;
  tags : json;
  enhanced_description : string
}.

Inductive suggestions_response : Type :=
| Response200 (data : suggestions)
| Response400 (error : string).

Section AiSuggestions.

Variable api_key : option string.
Variable post : string -> string -> http_result.
Variable py_float : string -> option pyfloat.
Variable strptime : string -> option Z.
Variable json_loads : string -> option json.
Variable now : Z.

(** [title] and [description] are the entries of [request.data]; the
    answer is the response the view returns, before the framework renders
    it. *)
Definition ai_suggestions (user : nat) (title description : field string) (db : DB)
    : suggestions_response :=
  let title := field_get title "" in
  let description := field_get description "" in
  match title with
  | EmptyString => Response400 "Title is required"
  | _ =>
      let recent_context := Store.recent_context now user db in
      let priority_score :=
        prioritize_task api_key post py_float title (Some description) recent_context in
      let current_workload := Store.pending_count user db in
      let suggested_deadline :=
        suggest_deadline api_key post strptime now title (Some description)
                         current_workload in
      let (category_name, tags) :=
        suggest_categories_and_tags api_key post json_loads title (Some description) in
      let enhanced_description :=
        enhance_task_description api_key post title (Some description) recent_context in
      Response200 (mk_suggestions priority_score suggested_deadline category_name tags
                                  enhanced_description)
  end.

End AiSuggestions.

End ContextEntryViewSet.

(** * Notions the properties are stated with *)

(** ** Replies of the completion service *)

Module Replies.

Definition digit_of (c : ascii) : option Z :=
  let n := nat_of_ascii c in
  if ((48 <=? n) && (n <=? 57))%nat then Some (Z.of_nat (n - 48)) else None.

(** The digits that start [s], read after [acc]: the number read, how
    many digits it took, and the rest of the text. *)
Fixpoint read_digits (s : string) (acc : Z) (n : nat) : Z * nat * string :=
  match s with
  | EmptyString => (acc, n, EmptyString)
  | String c s' =>
      match digit_of c with
      | Some d => read_digits s' (acc * 10 + d)%Z (S n)
      | None => (acc, n, s)
      end
  end.

Definition unsigned_decimal (s : string) : option Q :=
  let '(i, ni, rest) := read_digits s 0%Z 0 in
  match rest with
  | EmptyString => if (ni =? 0)%nat then None else Some (inject_Z i)
  | String "."%char rest' =>
      let '(f, nf, rest'') := read_digits rest' i 0 in
      match rest'' with
      | EmptyString =>
          if (ni + nf =? 0)%nat then None
          else Some (inject_Z f / inject_Z (10 ^ Z.of_nat nf))%Q
      | _ => None
      end
  | _ => None
  end.

(** The words [float] reads besides numbers, in any letter case. *)
Definition float_word (s : string) : option pyfloat :=
  let w := lower s in
  if String.eqb w "nan" then Some NaN
  else if String.eqb w "inf" || String.eqb w "infinity" then Some (Infinite false)
  else None.

Definition unsigned_float (s : string) : option pyfloat :=
  match float_word s with
  | Some v => Some v
  | None => option_map Finite (unsigned_decimal s)
  end.

Definition negated (v : pyfloat) : pyfloat :=
  match v with
  | Finite x => Finite (- x)
  | Infinite negative => Infinite (negb negative)
  | NaN => NaN
  end.

(** [float(s)] on the decimal literals without exponent, such as 5.0,
    -2 and .75, and on the words nan, inf and infinity; no other text is
    read. *)
Definition float_of_decimal (s : string) : option pyfloat :=
  match s with
  | String "-"%char s' => option_map negated (unsigned_float s')
  | String "+"%char s' => unsigned_float s'
  | _ => unsigned_float s
  end.

(** [json.loads(s)] on the texts of the constants and of the empty
    containers; no other text is read. *)
Definition json_loads_atoms (s : string) : option json :=
  if String.eqb s "[]" then Some (JArr [])
  else if String.eqb s "{}" then Some (JObj [])
  else if String.eqb s "null" then Some JNull
  else if String.eqb s "true" then Some (JBool true)
  else if String.eqb s "false" then Some (JBool false)
  else None.

(** A service that answers every prompt with the same text. *)
Definition always (reply : string) : string -> string -> http_result :=
  fun _ _ => Response 200 (Some reply).

(** A service that cannot be reached. *)
Definition unreachable : string -> string -> http_result :=
  fun _ _ => RequestFailed.

End Replies.

(** ** Sample data *)

Module Sample.

Definition task (pk : nat) (status : Status) (completed_at : option Z) : Task.t :=
  Task.make pk "Write the report" (Some "") status medium (Finite (5 # 10)) None None None
            (JArr []) None [] 100%Z 100%Z completed_at 1.

Definition empty : DB := mk_DB [] [] [].

Definition db (l : list Task.t) : DB := mk_DB l [] [].

End Sample.

Module Notions.

(** The number of lexicon words that occur in the text the priority
    fallback searches. *)
Definition matches (title : string) (description : option string) : nat :=
  Fallback.urgency_count Fallback.priority_urgency_words
                         (Fallback.priority_text title description).

(** The score the specification gives to a number of matches. *)
Definition score_of_matches (n : nat) : Q :=
  match n with
  | 0 => 5 # 10
  | 1 => 7 # 10
  | _ => 9 # 10
  end.

(** A title mentions a bucket when one of the bucket's keywords occurs
    in the lowercased title. *)
Definition Mentions (words : list string) (title : string) : Prop :=
  exists w, In w words /\ Occurs w (lower title).

(** The five pairs of the categorisation fallback. *)
Definition Work := ("Work", ["work"; "professional"]).
Definition Home := ("Home", ["home"; "household"]).
Definition Health := ("Health", ["health"; "wellness"]).
Definition Learning := ("Learning", ["learning"; "education"]).
Definition Personal := ("Personal", ["personal"; "general"]).

Fixpoint all_chars (p : ascii -> bool) (s : string) : bool :=
  match s with
  | EmptyString => true
  | String c s' => p c && all_chars p s'
  end.

(** The status the toggle-status action assigns. *)
Definition flipped (s : Status) : Status :=
  match s with
  | pending => completed
  | completed => pending
  | s => s
  end.

(** The share of completed tasks, in percent. *)
Definition percentage (completed_tasks total_tasks : nat) : Q :=
  (inject_Z (Z.of_nat completed_tasks) / inject_Z (Z.of_nat total_tasks) * 100)%Q.

Definition completed_count (user : nat) (db : DB) : nat :=
  TaskViewSet.count (fun x => Status_eqb (Task.status x) completed)
                    (TaskViewSet.get_queryset user db).

(** The score of a task when the service answers 5.0. *)
Definition score_for_reply_5 : pyfloat :=
  prioritize_task (Some "key") (Replies.always "5.0") Replies.float_of_decimal
                  "Water the plants" (Some "") [].

(** What a creation yielded: the score of the new task, the name of the
    category it refers to and its tags. *)
Definition yields (result : outcome (DB * Task.t))
    (score : Q) (category_name : string) (tag_list : list string) : Prop :=
  exists db' task c,
    result = Returned (db', task)
    /\ In task (tasks db')
    /\ Task.priority_score task = Finite score
    /\ In c (categories db')
    /\ Task.category task = Some (Category.pk c)
    /\ Category.name c = category_name
    /\ Task.tags task = PyJson.strings tag_list.

(** The task of the specification's example, created on an empty store
    by user 1 with the service disabled. *)
Definition report_task_created : outcome (DB * Task.t) :=
  TaskCreateSerializer.create
    None Replies.unreachable Replies.float_of_decimal (fun _ => None)
    Replies.json_loads_atoms (fun _ => "") 1000 (Some 1)
    (TaskCreateSerializer.mk_validated "Finish urgent report ASAP" (Given (Some ""))
                                       Absent Absent Absent)
    Sample.empty.

(** The prompt [perform_create] sends for a validated context entry. *)
Definition analysis_prompt (validated_data : ContextEntryViewSet.validated) : string :=
  Prompt.analyze_context
    (ContextEntryViewSet.content validated_data)
    (field_get (ContextEntryViewSet.source_type validated_data) "notes").

End Notions.

(** ** Notions for the further properties *)

Module Shape.

Definition first_char (s : string) : option ascii :=
  match s with
  | EmptyString => None
  | String c _ => Some c
  end.

Fixpoint last_char (s : string) : option ascii :=
  match s with
  | EmptyString => None
  | String c EmptyString => Some c
  | String _ s' => last_char s'
  end.

(** Every character is white space. *)
Definition blank (s : string) : bool := Notions.all_chars is_space s.

(** A context entry that [recent_context] may report at time [now] to
    [user]. *)
Definition recent_for (now : Z) (user : nat) (e : ContextEntry.t) : Prop :=
  ContextEntry.user e = user
  /\ (now - 7 * 86400 <= ContextEntry.created_at e)%Z.

(** The test [recent_context] filters with. *)
Definition is_recent (now : Z) (user : nat) (e : ContextEntry.t) : bool :=
  (ContextEntry.user e =? user)%nat
  && (now - Fallback.timedelta_days 7 <=? ContextEntry.created_at e)%Z.

(** Newer entries come first. *)
Definition newer_or_equal (a b : ContextEntry.t) : Prop :=
  (ContextEntry.created_at b <= ContextEntry.created_at a)%Z.

(** Primary keys and category names are not shared. *)
Definition unique_task_pks (db : DB) : Prop := NoDup (map Task.pk (tasks db)).
Definition unique_category_names (db : DB) : Prop :=
  NoDup (map Category.name (categories db)).

(** A task passes a parameter of [my_tasks] when the parameter is missing
    or empty, or when the task has the value asked for. *)
Definition passes (param : option string) (value : string) : Prop :=
  match param with
  | Some (String c r) => value = String c r
  | _ => True
  end.

Definition passes_search (param : option string) (title : string) : Prop :=
  match param with
  | Some (String c r) => Occurs (lower (String c r)) (lower title)
  | _ => True
  end.

End Shape.

(** ** The readings of the priority fallback and of the completion rate *)

Module Reading.

(** The urgency lexicon of the specification. *)
Definition urgency_lexicon : list string :=
  ["urgent"; "asap"; "immediately"; "deadline"; "due"; "important";
   "critical"; "emergency"].

(** A missing description reads as the text None. *)
Definition description_text (description : option string) : string :=
  match description with
  | Some d => d
  | None => "None"
  end.

(** The lowercased text made of the title, one space and the
    description. *)
Definition searched_text (title : string) (description : option string) : string :=
  lower (title ++ " " ++ description_text description).

(** [n] words of the lexicon occur in the searched text, each counted
    once. *)
Definition LexiconMatches (title : string) (description : option string) (n : nat)
    : Prop :=
  exists hits,
    NoDup hits
    /\ (forall w, In w hits
                  <-> In w urgency_lexicon
                      /\ Occurs w (searched_text title description))
    /\ length hits = n.

(** The lowercased concatenation of title and description. *)
Definition concatenated_text (title : string) (description : option string) : string :=
  lower (title ++ description_text description).

(** The places of [s] at which [w] starts. *)
Fixpoint occurrences (w s : string) : nat :=
  (if String.prefix w s then 1 else 0)
  + match s with
    | EmptyString => 0
    | String _ s' => occurrences w s'
    end.

(** The occurrences of the words of the lexicon in a text. *)
Definition lexicon_occurrences (text : string) : nat :=
  list_sum (map (fun w => occurrences w text) urgency_lexicon).

(** The words of the lexicon that occur in a text. *)
Definition lexicon_words_in (text : string) : nat :=
  length (filter (fun w => contains w text) urgency_lexicon).

(** A float that lies in the unit interval. *)
Definition in_unit_interval (v : pyfloat) : Prop :=
  match v with
  | Finite x => (0 <= x <= 1)%Q
  | _ => False
  end.

(** [x] rounded to one decimal place, a tie going to the even digit, and
    a tie going up. *)
Definition half_even_tenths (x : Q) : Q :=
  (inject_Z (PyNum.round_half_even (x * 10)) / 10)%Q.
Definition half_up_tenths (x : Q) : Q :=
  (inject_Z (Qfloor (x * 10 + (1 # 2))) / 10)%Q.

(** Eighty tasks of user 1, the first [n] of them completed. *)
Definition eighty_tasks (n : nat) : DB :=
  Sample.db (map (fun pk => if (pk <=? n)%nat
                            then Sample.task pk completed (Some 400%Z)
                            else Sample.task pk pending None)
                 (seq 1 80)).

End Reading.

(** * Properties *)

(** ** The substring test *)

Section SubstringTest.

Lemma prefix_iff_append (w s : string) :
  String.prefix w s = true <-> exists q, s = w ++ q.
Proof.
  revert s; induction w as [|a w IH]; intros s.
  - split; [intros _; exists s; reflexivity | intros _; destruct s; reflexivity].
  - destruct s as [|b s]; simpl.
    + split; [discriminate | intros [q Hq]; discriminate].
    + destruct (ascii_dec a b) as [->|Hab].
      * rewrite IH. split; intros [q Hq]; exists q.
        -- now rewrite Hq.
        -- now inversion Hq.
      * split; [discriminate | intros [q Hq]; congruence].
Qed.

Lemma contains_unfold (w s : string) :
  contains w s =
  String.prefix w s
  || match s with EmptyString => false | String _ s' => contains w s' end.
Proof. destruct s; reflexivity. Qed.

(** The boolean test decides the occurrence of a contiguous substring. *)
Lemma contains_Occurs (w s : string) :
  contains w s = true <-> Occurs w s.
Proof.
  split.
  - induction s as [|c s IH]; rewrite contains_unfold; intros H;
      apply orb_true_iff in H; destruct H as [H|H]; try discriminate.
    + apply prefix_iff_append in H as [q Hq]. now exists "", q.
    + apply prefix_iff_append in H as [q Hq]. now exists "", q.
    + destruct (IH H) as (p & q & Hpq). exists (String c p), q.
      simpl. now rewrite Hpq.
  - intros (p & q & Hpq). revert s Hpq.
    induction p as [|c p IH]; intros s Hpq; rewrite contains_unfold.
    + apply orb_true_iff; left. apply prefix_iff_append. now exists q.
    + subst s. simpl. apply orb_true_iff; right. now apply IH.
Qed.

Lemma lower_idempotent (s : string) : lower (lower s) = lower s.
Proof.
  induction s as [|c s IH]; simpl; [reflexivity|].
  rewrite IH. f_equal.
  destruct c as [[] [] [] [] [] [] [] []]; reflexivity.
Qed.

End SubstringTest.

(** ** The priority fallback *)

Module PriorityFallback.
Import Fallback Notions.

Lemma fallback_is_score_of_matches title description :
  _fallback_priority_calculation title description
  = score_of_matches (matches title description).
Proof.
  unfold _fallback_priority_calculation, matches.
  destruct (urgency_count _ _) as [|[|n]]; reflexivity.
Qed.

Lemma score_of_matches_monotone (n m : nat) :
  n <= m -> (score_of_matches n <= score_of_matches m)%Q.
Proof.
  intros H.
  destruct n as [|[|n]], m as [|[|m]]; simpl; try lia;
    unfold Qle; simpl; lia.
Qed.

(** A word of the lexicon is counted when it occurs, once however often
    it occurs. *)
Lemma matches_counts_words title description :
  matches title description
  = length (filter (fun w => contains w (priority_text title description))
                   priority_urgency_words)
  /\ (forall w, In w (filter (fun w => contains w (priority_text title description))
                             priority_urgency_words)
                <-> In w priority_urgency_words
                    /\ Occurs w (priority_text title description)).
Proof.
  split; [reflexivity|].
  intros w. rewrite filter_In, contains_Occurs. reflexivity.
Qed.

Example repeated_word_counts_once :
  matches "urgent urgent URGENT" (Some "") = 1.
Proof. reflexivity. Qed.

Lemma urgency_lexicon_NoDup : NoDup Reading.urgency_lexicon.
Proof.
  unfold Reading.urgency_lexicon.
  repeat (constructor; [simpl; intuition discriminate|]). constructor.
Qed.

(** The count of the specification is the count of the code: the number
    of matches is determined, and it is what [urgency_count] returns on the
    text of the code. *)
Lemma LexiconMatches_iff title description n :
  Reading.LexiconMatches title description n <-> n = matches title description.
Proof.
  set (hits := filter (fun w => contains w (Reading.searched_text title description))
                      Reading.urgency_lexicon).
  assert (NoDup hits) as Hnodup by apply NoDup_filter, urgency_lexicon_NoDup.
  assert (forall w, In w hits
                    <-> In w Reading.urgency_lexicon
                        /\ Occurs w (Reading.searched_text title description))
    as Hhits.
  { intros w. unfold hits. rewrite filter_In, contains_Occurs. reflexivity. }
  assert (matches title description = length hits) as Hcount by reflexivity.
  split.
  - intros (hits' & Hnodup' & Hhits' & <-). rewrite Hcount.
    apply Permutation_length, NoDup_Permutation; auto.
    intros w. rewrite Hhits, Hhits'. reflexivity.
  - intros ->. exists hits. repeat split; auto; apply Hhits; auto.
Qed.

(** The claim of C5 fails on the code in both parts of its wording.  The
    text searched is not the concatenation of title and description: a
    space is put between them, so a word that the concatenation forms
    across the two is not found.  And the occurrences are not counted: a
    word found several times counts once. *)
Lemma fallback_priority_differs_from_claim :
  (Reading.lexicon_words_in (Reading.concatenated_text "overd" (Some "ue soon")) = 1
   /\ Reading.lexicon_occurrences
        (Reading.concatenated_text "overd" (Some "ue soon")) = 1
   /\ score_of_matches 1 = (7 # 10)%Q
   /\ _fallback_priority_calculation "overd" (Some "ue soon") = (5 # 10)%Q
   /\ _fallback_priority_calculation "overd" (Some "ue soon") <> score_of_matches 1)
  /\ (Reading.lexicon_occurrences
        (Reading.concatenated_text "urgent urgent URGENT" (Some "")) = 3
      /\ score_of_matches 3 = (9 # 10)%Q
      /\ _fallback_priority_calculation "urgent urgent URGENT" (Some "") = (7 # 10)%Q
      /\ _fallback_priority_calculation "urgent urgent URGENT" (Some "")
         <> score_of_matches 3).
Proof. repeat split; discriminate. Qed.

(** C5, amended: the fallback of [score_priority] counts the words of the
    urgency lexicon urgent, asap, immediately, deadline, due, important,
    critical, emergency that occur as substrings of the lowercased text
    made of the title, one space and the description, each word counted
    once however often it occurs; it returns 0.9 for two or more matches,
    0.7 for exactly one and 0.5 for none, so its value is one of 0.5, 0.7
    and 0.9 and does not decrease when the number of matches grows. *)
Theorem fallback_priority_by_lexicon_matches
    (title : string) (description : option string) :
  let score := _fallback_priority_calculation title description in
  (exists n, Reading.LexiconMatches title description n)
  /\ (forall n, Reading.LexiconMatches title description n ->
                (2 <= n -> score = (9 # 10)%Q)
                /\ (n = 1 -> score = (7 # 10)%Q)
                /\ (n = 0 -> score = (5 # 10)%Q))
  /\ (score = (5 # 10)%Q \/ score = (7 # 10)%Q \/ score = (9 # 10)%Q)
  /\ (forall title' description' n n',
         Reading.LexiconMatches title description n ->
         Reading.LexiconMatches title' description' n' ->
         n <= n' ->
         (score <= _fallback_priority_calculation title' description')%Q).
Proof.
  cbv zeta. rewrite fallback_is_score_of_matches.
  split; [|split; [|split]].
  - exists (matches title description). now apply LexiconMatches_iff.
  - intros n Hn. apply LexiconMatches_iff in Hn. subst n.
    destruct (matches title description) as [|[|k]]; repeat split;
      intros H; try reflexivity; try discriminate; lia.
  - destruct (matches title description) as [|[|n]]; simpl; auto.
  - intros title' description' n n' Hn Hn' Hle.
    apply LexiconMatches_iff in Hn, Hn'. subst n n'.
    rewrite fallback_is_score_of_matches.
    now apply score_of_matches_monotone.
Qed.

Lemma fallback_priority_by_lexicon_matches_witness :
  Reading.LexiconMatches "Pay rent, due Friday" (Some "") 1
  /\ _fallback_priority_calculation "Pay rent, due Friday" (Some "") = (7 # 10)%Q
  /\ (_fallback_priority_calculation "Pay rent, due Friday" (Some "")
      <= _fallback_priority_calculation "URGENT: fix critical bug" None)%Q.
Proof.
  assert (Reading.LexiconMatches "Pay rent, due Friday" (Some "") 1) as H1.
  { exists ["due"]. split; [repeat constructor; simpl; tauto|]. split; [|reflexivity].
    intros w. split.
    - intros [<-|[]]. split; [simpl; tauto | apply contains_Occurs; reflexivity].
    - intros [Hw Hocc]. apply contains_Occurs in Hocc.
      simpl in Hw. destruct Hw as [<-|[<-|[<-|[<-|[<-|[<-|[<-|[<-|[]]]]]]]]];
        try discriminate Hocc. now left. }
  assert (Reading.LexiconMatches "URGENT: fix critical bug" None 2) as H2.
  { exists ["urgent"; "critical"].
    split; [repeat constructor; simpl; intuition discriminate|].
    split; [|reflexivity].
    intros w. split.
    - intros [<-|[<-|[]]]; (split; [simpl; tauto | apply contains_Occurs; reflexivity]).
    - intros [Hw Hocc]. apply contains_Occurs in Hocc.
      simpl in Hw. destruct Hw as [<-|[<-|[<-|[<-|[<-|[<-|[<-|[<-|[]]]]]]]]];
        try discriminate Hocc; simpl; tauto. }
  pose proof (fallback_priority_by_lexicon_matches "Pay rent, due Friday" (Some ""))
    as H. cbv zeta in H. destruct H as (_ & Hscore & _ & Hmono).
  split; [exact H1|]. split.
  - now apply (Hscore 1 H1).
  - apply (Hmono "URGENT: fix critical bug" None 1 2 H1 H2). lia.
Defined.

End PriorityFallback.

(** ** The categorisation fallback *)

Module CategoryFallback.
Import Fallback Notions.

Lemma any_in_Mentions (words : list string) (title : string) :
  any_in words (lower title) = true <-> Mentions words title.
Proof.
  unfold any_in, Mentions. rewrite existsb_exists.
  split; intros (w & Hin & Hw); exists w; split; auto;
    now apply contains_Occurs.
Qed.

Lemma any_in_not_Mentions (words : list string) (title : string) :
  any_in words (lower title) = false <-> ~ Mentions words title.
Proof.
  rewrite <- any_in_Mentions. symmetry. apply not_true_iff_false.
Qed.

(** C6: the fallback of [suggest_category_and_tags] is a total function
    of the lowercased title: every title gets one of the five pairs, and
    the buckets are tried in the order Work, Home, Health, Learning, with
    Personal when no bucket is mentioned, the first one mentioned
    winning. *)
Theorem fallback_categorization_first_bucket_wins (title : string) :
  let result := _fallback_categorization title in
  (Mentions work_words title -> result = Work)
  /\ (~ Mentions work_words title -> Mentions home_words title -> result = Home)
  /\ (~ Mentions work_words title -> ~ Mentions home_words title ->
      Mentions health_words title -> result = Health)
  /\ (~ Mentions work_words title -> ~ Mentions home_words title ->
      ~ Mentions health_words title -> Mentions learning_words title ->
      result = Learning)
  /\ (~ Mentions work_words title -> ~ Mentions home_words title ->
      ~ Mentions health_words title -> ~ Mentions learning_words title ->
      result = Personal)
  /\ In result [Work; Home; Health; Learning; Personal]
  /\ (forall title', lower title' = lower title ->
                     _fallback_categorization title' = result).
Proof.
  cbv zeta. unfold _fallback_categorization.
  repeat rewrite <- any_in_Mentions.
  repeat split.
  - intros ->. reflexivity.
  - intros Hw Hh. apply not_true_is_false in Hw. now rewrite Hw, Hh.
  - intros Hw Hh Hhe.
    apply not_true_is_false in Hw, Hh. now rewrite Hw, Hh, Hhe.
  - intros Hw Hh Hhe Hl.
    apply not_true_is_false in Hw, Hh, Hhe. now rewrite Hw, Hh, Hhe, Hl.
  - intros Hw Hh Hhe Hl.
    apply not_true_is_false in Hw, Hh, Hhe, Hl. now rewrite Hw, Hh, Hhe, Hl.
  - destruct (any_in work_words _); [simpl; auto|].
    destruct (any_in home_words _); [simpl; auto|].
    destruct (any_in health_words _); [simpl; auto|].
    destruct (any_in learning_words _); simpl; auto 6.
  - intros title' ->. reflexivity.
Qed.

Lemma fallback_categorization_first_bucket_wins_witness :
  Mentions home_words "Clean the OFFICE"
  /\ _fallback_categorization "Clean the OFFICE" = Work.
Proof.
  split.
  - apply any_in_Mentions. reflexivity.
  - pose proof (fallback_categorization_first_bucket_wins "Clean the OFFICE") as H.
    cbv zeta in H. destruct H as (Hwork & _).
    apply Hwork, any_in_Mentions. reflexivity.
Defined.

End CategoryFallback.

(** ** The context fallback *)

Module ContextFallbackFacts.
Import ContextFallback Notions.

Lemma scan_word_chars (s : string) :
  all_chars is_word_char (fst (scan s)) = true
  /\ Forall (fun w => all_chars is_word_char w = true /\ w <> "") (snd (scan s)).
Proof.
  induction s as [|c s [IHrun IHrest]]; simpl; [split; [reflexivity|constructor]|].
  destruct (scan s) as [run rest]; simpl in *.
  destruct (is_word_char c) eqn:Hc; simpl.
  - split; [now rewrite Hc, IHrun | exact IHrest].
  - split; [reflexivity|].
    destruct run; simpl; [exact IHrest|].
    constructor; [split; [exact IHrun | discriminate] | exact IHrest].
Qed.

(** What a keyword of the fallback is: a run of at least four word
    characters of the lowercased content that is not a stop word. *)
Lemma context_keywords_spec (context_text k : string) :
  In k (context_keywords context_text) ->
  4 <= String.length k
  /\ all_chars is_word_char k = true
  /\ ~ In k stop_words
  /\ In k (word_runs (lower context_text)).
Proof.
  unfold context_keywords, findall_words4.
  rewrite !filter_In. intros [[Hrun Hlen] Hstop].
  apply Nat.leb_le in Hlen. repeat split; auto.
  - unfold word_runs in Hrun.
    pose proof (scan_word_chars (lower context_text)) as [Hfst Hsnd].
    destruct (scan (lower context_text)) as [run rest]; simpl in *.
    rewrite Forall_forall in Hsnd.
    destruct run; simpl in Hrun.
    + now apply Hsnd.
    + destruct Hrun as [<-|Hin]; [exact Hfst | now apply Hsnd].
  - intros Hin. apply negb_true_iff in Hstop.
    assert (existsb (String.eqb k) stop_words = true) as E.
    { apply existsb_exists. exists k. split; [exact Hin | apply String.eqb_refl]. }
    congruence.
Qed.

(** The label is "high" exactly when one of the seven words of
    [context_urgency_words] occurs in the lowercased content. *)
Lemma context_priority_high (context_text : string) :
  context_priority context_text = "high"
  <-> exists w, In w context_urgency_words /\ Occurs w (lower context_text).
Proof.
  unfold context_priority, Fallback.urgency_count.
  set (hits := filter _ context_urgency_words).
  assert (forall w, In w hits
                    <-> In w context_urgency_words /\ Occurs w (lower context_text)) as Hhits.
  { intros w. unfold hits. rewrite filter_In, contains_Occurs. reflexivity. }
  destruct hits as [|w hits']; simpl.
  - split; [discriminate|]. intros (w & Hw). apply Hhits in Hw. destruct Hw.
  - split; [|reflexivity]. intros _. exists w. apply Hhits. now left.
Qed.

Lemma context_priority_label (context_text : string) :
  context_priority context_text = "high" \/ context_priority context_text = "normal".
Proof.
  unfold context_priority. destruct (_ <? _)%nat; auto.
Qed.

(** The parts of the bundle that do not depend on the lexicon. *)
Lemma fallback_context_analysis_shape (context_text : string) :
  let keywords := context_keywords context_text in
  _fallback_context_analysis context_text
  = JObj [ ("topics", PyJson.strings (firstn 5 keywords));
           ("deadlines", JArr []);
           ("priorities", JArr [JStr (context_priority context_text)]);
           ("sentiment", JStr "neutral");
           ("action_items", JArr []);
           ("keywords", PyJson.strings (firstn 10 keywords)) ].
Proof. reflexivity. Qed.

(** C7: the priority label of the context fallback is "high" when a word
    of the urgency lexicon occurs in the content.  The code does not do
    this for the word emergency: its list has seven of the eight words. *)
Theorem fallback_context_analysis_ignores_emergency :
  In "emergency" Fallback.priority_urgency_words
  /\ Occurs "emergency" (lower "Emergency call from school")
  /\ _fallback_context_analysis "Emergency call from school"
     = JObj [ ("topics", JArr [JStr "emergency"; JStr "call"; JStr "school"]);
              ("deadlines", JArr []);
              ("priorities", JArr [JStr "normal"]);
              ("sentiment", JStr "neutral");
              ("action_items", JArr []);
              ("keywords", JArr [JStr "emergency"; JStr "call"; JStr "school"]) ].
Proof.
  split; [simpl; tauto|].
  split; [apply contains_Occurs; reflexivity | reflexivity].
Qed.

End ContextFallbackFacts.

(** ** The toggle-status action *)

Module ToggleStatus.
Import TaskViewSet Notions.

Lemma toggle_status_of_object now user pk db task :
  get_object user pk db = Returned task ->
  toggle_status now user pk db = Returned (Store.save_task now (toggled task) db).
Proof. intros H. unfold toggle_status. now rewrite H. Qed.

(** The action never writes [completed_at]. *)
Lemma toggled_completed_at now task :
  Task.completed_at (Store.stamp now (toggled task)) = Task.completed_at task.
Proof. unfold toggled. destruct (Task.status task); reflexivity. Qed.

Lemma toggled_status now task :
  Task.status (Store.stamp now (toggled task)) = flipped (Task.status task).
Proof.
  unfold toggled.
  destruct (Task.status task) eqn:E; simpl; try reflexivity; exact E.
Qed.

(** C1: [completed_at] is set exactly when the status is completed, and
    the toggle-status action keeps this: a pending task becomes completed
    with [completed_at] set, a completed one becomes pending with
    [completed_at] cleared.  The code does the switch of the status and
    leaves [completed_at] as it was, so a task that satisfied the
    invariant no longer satisfies it after the action. *)
Theorem toggle_status_breaks_completed_at_invariant
    (now : Z) (user pk : nat) (db : DB) (task : Task.t) :
  get_object user pk db = Returned task ->
  Task.completed_at_invariant task ->
  Task.status task = pending \/ Task.status task = completed ->
  exists db' task',
    toggle_status now user pk db = Returned (db', task')
    /\ Task.status task' = flipped (Task.status task)
    /\ Task.completed_at task' = Task.completed_at task
    /\ ~ Task.completed_at_invariant task'.
Proof.
  intros Hget Hinv Hst.
  rewrite (toggle_status_of_object now _ _ _ _ Hget).
  unfold Store.save_task.
  eexists _, _. split; [reflexivity|].
  split; [apply toggled_status|].
  split; [apply toggled_completed_at|].
  unfold Task.completed_at_invariant in *.
  rewrite toggled_status, toggled_completed_at.
  destruct Hst as [E|E]; rewrite E in *; simpl; intros H.
  - destruct Hinv as [Hinv _]. destruct H as [_ H].
    specialize (H eq_refl). specialize (Hinv H). discriminate.
  - destruct Hinv as [_ Hinv]. destruct H as [H _].
    specialize (H (Hinv eq_refl)). discriminate.
Qed.

Lemma toggle_status_breaks_completed_at_invariant_witness :
  exists db' task',
    toggle_status 500 1 7 (Sample.db [Sample.task 7 pending None])
    = Returned (db', task')
    /\ Task.status task' = completed
    /\ Task.completed_at task' = None
    /\ ~ Task.completed_at_invariant task'.
Proof.
  apply (toggle_status_breaks_completed_at_invariant
           500 1 7 (Sample.db [Sample.task 7 pending None])
           (Sample.task 7 pending None)).
  - reflexivity.
  - unfold Task.completed_at_invariant; simpl.
    split; intros H; [now destruct H | discriminate].
  - left; reflexivity.
Defined.

(** The sibling path: an update through [TaskSerializer] that carries a
    status leaves the task with the invariant, and one that carries none
    keeps it. *)
Lemma update_keeps_completed_at_invariant now instance validated_data db :
  (TaskSerializer.new_status validated_data = Absent ->
   Task.completed_at_invariant instance) ->
  Task.completed_at_invariant
    (snd (TaskSerializer.update now instance validated_data db)).
Proof.
  unfold TaskSerializer.update, TaskSerializer.completed_at_entry,
    Task.completed_at_invariant; simpl.
  destruct (TaskSerializer.new_status validated_data) as [|[]]; simpl;
    intros H; try (apply H; reflexivity);
    split; intros H'; try reflexivity; try discriminate; now destruct H'.
Qed.

(** C10: on a task whose status is in_progress or cancelled the
    toggle-status action changes neither the status nor any other field
    but the update time stamp, and it returns the task so stamped. *)
Theorem toggle_status_other_statuses_unchanged
    (now : Z) (user pk : nat) (db : DB) (task : Task.t) :
  get_object user pk db = Returned task ->
  Task.status task = in_progress \/ Task.status task = cancelled ->
  toggle_status now user pk db
  = Returned
      (mk_DB (Store.replace_task (Task.with_updated_at now task) (tasks db))
             (categories db) (context_entries db),
       Task.with_updated_at now task)
  /\ Task.status (Task.with_updated_at now task) = Task.status task.
Proof.
  intros Hget Hst.
  rewrite (toggle_status_of_object now _ _ _ _ Hget).
  split; [|reflexivity].
  unfold Store.save_task, Store.stamp, toggled.
  destruct Hst as [E|E]; rewrite E; reflexivity.
Qed.

Lemma toggle_status_other_statuses_unchanged_witness :
  toggle_status 500 1 7 (Sample.db [Sample.task 7 in_progress None])
  = Returned
      (Sample.db [Task.with_updated_at 500 (Sample.task 7 in_progress None)],
       Task.with_updated_at 500 (Sample.task 7 in_progress None))
  /\ Task.status (Task.with_updated_at 500 (Sample.task 7 in_progress None))
     = in_progress.
Proof.
  apply (toggle_status_other_statuses_unchanged
           500 1 7 (Sample.db [Sample.task 7 in_progress None])
           (Sample.task 7 in_progress None)).
  - reflexivity.
  - left; reflexivity.
Defined.

End ToggleStatus.

(** ** Rounding to a double *)

Module DoubleRounding.
Import PyNum.

Lemma round_half_even_near (q : Q) :
  (- (1 # 2) <= inject_Z (round_half_even q) - q <= 1 # 2)%Q.
Proof.
  unfold round_half_even.
  pose proof (Qfloor_le q) as Hlo.
  pose proof (Qlt_floor q) as Hhi.
  rewrite inject_Z_plus in Hhi.
  change (inject_Z 1) with 1%Q in Hhi.
  destruct (Qcompare_spec (q - inject_Z (Qfloor q)) (1 # 2)) as [E|E|E];
    [destruct (Z.even (Qfloor q))| |];
    rewrite ?inject_Z_plus; change (inject_Z 1) with 1%Q; lra.
Qed.

Lemma round_half_even_within (x : Q) (lo hi : Z) :
  (inject_Z lo <= x <= inject_Z hi)%Q ->
  (lo <= round_half_even x <= hi)%Z.
Proof.
  intros [Hlo Hhi].
  pose proof (Qfloor_le x) as Hf. pose proof (Qlt_floor x) as Hc.
  assert (lo <= Qfloor x)%Z as Hlof.
  { rewrite <- (Qfloor_Z lo). now apply Qfloor_resp_le. }
  assert (Qfloor x <= hi)%Z as Hfhi.
  { rewrite <- (Qfloor_Z hi). now apply Qfloor_resp_le. }
  assert ((0 < x - inject_Z (Qfloor x))%Q -> (Qfloor x + 1 <= hi)%Z) as Hup.
  { intros Hpos. destruct (Z.eq_dec (Qfloor x) hi) as [E|E]; [|lia].
    rewrite E in Hpos. lra. }
  unfold round_half_even.
  destruct (Qcompare_spec (x - inject_Z (Qfloor x)) (1 # 2)) as [E|E|E].
  - destruct (Z.even (Qfloor x)); [lia|]. split; [lia|]. apply Hup. lra.
  - lia.
  - split; [lia|]. apply Hup. lra.
Qed.

Lemma pow2_pos (e : Z) : (0 < 2 ^ e)%Q.
Proof. apply Qpower_0_lt. reflexivity. Qed.

Lemma pow2_cancel (e : Z) : (2 ^ (- e) * 2 ^ e == 1)%Q.
Proof.
  rewrite <- Qpower_plus by discriminate.
  replace (- e + e)%Z with 0%Z by lia. reflexivity.
Qed.

(** A number up to [2 ^ k] has its last binary place at [k - 52] or
    lower. *)
Lemma ulp_exponent_le (q : Q) (k : Z) :
  (0 <= k)%Z -> (0 <= q <= inject_Z (2 ^ k))%Q -> (ulp_exponent q <= k - 52)%Z.
Proof.
  intros Hk [Hq0 Hqk]. unfold ulp_exponent.
  rewrite (Qabs_pos q Hq0).
  assert (Qfloor (q * 2 ^ 1074) <= 2 ^ (k + 1074))%Z as Hfloor.
  { rewrite <- (Qfloor_Z (2 ^ (k + 1074))). apply Qfloor_resp_le.
    rewrite Z.pow_add_r by lia. rewrite inject_Z_mult.
    rewrite (Zpower_Qpower 2 1074) by lia. change (inject_Z 2) with 2%Q.
    apply Qmult_le_compat_r; [exact Hqk|]. apply Qlt_le_weak, pow2_pos. }
  apply Z.log2_le_mono in Hfloor.
  rewrite Z.log2_pow2 in Hfloor by lia. lia.
Qed.

(** The double nearest to [q] is at most half a unit of the last place
    away. *)
Lemma to_double_near (q : Q) :
  (- (2 ^ ulp_exponent q / 2) <= to_double q - q <= 2 ^ ulp_exponent q / 2)%Q.
Proof.
  unfold to_double. cbv zeta.
  set (e := ulp_exponent q).
  pose proof (round_half_even_near (q * 2 ^ (- e))) as H.
  set (m := inject_Z (round_half_even (q * 2 ^ (- e)))) in *.
  pose proof (pow2_pos e) as Hpos. pose proof (pow2_cancel e) as Hcancel.
  set (p := (2 ^ e)%Q) in *. set (p' := (2 ^ (- e))%Q) in *.
  assert (m * p - q == (m - q * p') * p)%Q as ->.
  { transitivity (m * p - q * (p' * p))%Q; [rewrite Hcancel|]; ring. }
  set (d := (m - q * p')%Q) in *.
  assert (d * p <= (1 # 2) * p)%Q as Hup.
  { apply Qmult_le_compat_r; [apply H | now apply Qlt_le_weak]. }
  assert (- (1 # 2) * p <= d * p)%Q as Hdown.
  { apply Qmult_le_compat_r; [apply H | now apply Qlt_le_weak]. }
  unfold Qdiv. change (/ 2)%Q with (1 # 2)%Q. lra.
Qed.

Lemma to_double_error (q : Q) (k : Z) :
  (0 <= k)%Z -> (0 <= q <= inject_Z (2 ^ k))%Q ->
  (- 2 ^ (k - 53) <= to_double q - q <= 2 ^ (k - 53))%Q.
Proof.
  intros Hk Hq.
  pose proof (ulp_exponent_le q k Hk Hq) as He.
  pose proof (to_double_near q) as Hnear.
  assert (2 ^ ulp_exponent q / 2 <= 2 ^ (k - 53))%Q as Hulp.
  { replace (k - 53)%Z with ((k - 52) + (- 1))%Z by lia.
    rewrite Qpower_plus by discriminate.
    change (2 ^ (-1))%Q with (1 # 2)%Q.
    assert (2 ^ ulp_exponent q <= 2 ^ (k - 52))%Q as H.
    { apply Qpower_le_compat_l; [exact He | discriminate]. }
    unfold Qdiv. change (/ 2)%Q with (1 # 2)%Q. lra. }
  lra.
Qed.

(** Rounding to a double does not leave an interval from 0 to a small
    integer. *)
Lemma to_double_between (q : Q) (hi k : Z) :
  (0 <= k <= 52)%Z -> (hi <= 2 ^ k)%Z -> (0 <= q <= inject_Z hi)%Q ->
  (0 <= to_double q <= inject_Z hi)%Q.
Proof.
  intros Hk Hhi [Hq0 Hqhi].
  assert (ulp_exponent q <= 0)%Z as He.
  { assert (ulp_exponent q <= k - 52)%Z; [|lia].
    apply ulp_exponent_le; [lia|]. split; [exact Hq0|].
    apply Qle_trans with (inject_Z hi); [exact Hqhi|]. now rewrite <- Zle_Qle. }
  unfold to_double. cbv zeta. set (e := ulp_exponent q) in *.
  pose proof (pow2_pos e) as Hpos. pose proof (pow2_pos (- e)) as Hpos'.
  pose proof (pow2_cancel e) as Hcancel.
  assert (2 ^ (- e) == inject_Z (2 ^ (- e)))%Q as Hint.
  { rewrite Zpower_Qpower by lia. reflexivity. }
  assert (0 <= round_half_even (q * 2 ^ (- e)) <= hi * 2 ^ (- e))%Z as [Hm0 Hmhi].
  { apply round_half_even_within. rewrite inject_Z_mult, <- Hint.
    change (inject_Z 0) with 0%Q. split.
    - apply Qmult_le_0_compat; [exact Hq0 | now apply Qlt_le_weak].
    - apply Qmult_le_compat_r; [exact Hqhi | now apply Qlt_le_weak]. }
  rewrite Zle_Qle in Hm0, Hmhi. rewrite inject_Z_mult, <- Hint in Hmhi.
  change (inject_Z 0) with 0%Q in Hm0.
  set (m := inject_Z (round_half_even (q * 2 ^ (- e)))) in *.
  set (p := (2 ^ e)%Q) in *. set (p' := (2 ^ (- e))%Q) in *.
  set (h := inject_Z hi) in *.
  split.
  - apply Qmult_le_0_compat; [exact Hm0 | now apply Qlt_le_weak].
  - assert (h == h * p' * p)%Q as E.
    { transitivity (h * (p' * p))%Q; [rewrite Hcancel|]; ring. }
    apply Qle_trans with (h * p' * p)%Q.
    + apply Qmult_le_compat_r; [exact Hmhi | now apply Qlt_le_weak].
    + apply Qle_lteq. right. symmetry. exact E.
Qed.

Lemma fraction_between (c t : nat) :
  c <= t -> 0 < t ->
  (0 <= inject_Z (Z.of_nat c) / inject_Z (Z.of_nat t) <= 1)%Q.
Proof.
  intros Hct Ht.
  assert (0 < inject_Z (Z.of_nat t))%Q as Htq.
  { change 0%Q with (inject_Z 0). rewrite <- Zlt_Qlt. lia. }
  assert (0 <= inject_Z (Z.of_nat c))%Q as Hcq.
  { change 0%Q with (inject_Z 0). rewrite <- Zle_Qle. lia. }
  assert (inject_Z (Z.of_nat c) <= inject_Z (Z.of_nat t))%Q as Hle.
  { rewrite <- Zle_Qle. lia. }
  split.
  - apply Qle_shift_div_l; [exact Htq|]. lra.
  - apply Qle_shift_div_r; [exact Htq|]. lra.
Qed.

(** The percentage as the code computes it, [c / t * 100] in doubles: it
    lies between 0 and 100 and within [2 ^ -45] of the exact percentage. *)
Lemma float_percentage (c t : nat) :
  c <= t -> 0 < t ->
  let exact := Notions.percentage c t in
  let computed := mul (to_double (inject_Z (Z.of_nat c) / inject_Z (Z.of_nat t))) 100 in
  (0 <= computed <= 100)%Q
  /\ (- 2 ^ (-45) <= computed - exact <= 2 ^ (-45))%Q.
Proof.
  intros Hct Ht. cbv zeta. unfold Notions.percentage, mul.
  pose proof (fraction_between c t Hct Ht) as Hq0.
  set (q0 := (inject_Z (Z.of_nat c) / inject_Z (Z.of_nat t))%Q) in *.
  pose proof (to_double_between q0 1 0 ltac:(lia) ltac:(reflexivity) Hq0) as Hq.
  pose proof (to_double_error q0 0 ltac:(lia) Hq0) as Hqe.
  change (inject_Z 1) with 1%Q in Hq.
  set (q := to_double q0) in *.
  assert (0 <= q * 100 <= inject_Z 100)%Q as Hy0
      by (change (inject_Z 100) with 100%Q; lra).
  pose proof (to_double_between (q * 100) 100 7 ltac:(lia) ltac:(vm_compute; discriminate)
                Hy0) as Hy.
  assert (0 <= q * 100 <= inject_Z (2 ^ 7))%Q as Hy0'
      by (change (inject_Z (2 ^ 7)) with 128%Q; lra).
  pose proof (to_double_error (q * 100) 7 ltac:(lia) Hy0') as Hye.
  change (inject_Z 100) with 100%Q in Hy.
  set (y := to_double (q * 100)) in *.
  change (2 ^ (0 - 53))%Q with (1 # 9007199254740992)%Q in Hqe.
  change (2 ^ (7 - 53))%Q with (1 # 70368744177664)%Q in Hye.
  change (2 ^ (-45))%Q with (1 # 35184372088832)%Q.
  split; [exact Hy | lra].
Qed.

(** [round(x, 1)] of a double between 0 and 100: the double of a number
    of tenths that is at most a twentieth from [x]. *)
Lemma round1_tenths (x : Q) :
  (0 <= x <= 100)%Q ->
  exists tenths : Z,
    (0 <= tenths <= 1000)%Z
    /\ round1 x = to_double (inject_Z tenths / 10)
    /\ (- (1 # 20) <= inject_Z tenths / 10 - x <= 1 # 20)%Q
    /\ (- 2 ^ (-46) <= round1 x - inject_Z tenths / 10 <= 2 ^ (-46))%Q
    /\ (0 <= round1 x <= 100)%Q.
Proof.
  intros Hx. unfold round1.
  pose proof (round_half_even_near (x * 10)) as Hnear.
  assert (0 <= round_half_even (x * 10) <= 1000)%Z as Hk.
  { apply round_half_even_within.
    change (inject_Z 0) with 0%Q. change (inject_Z 1000) with 1000%Q. lra. }
  exists (round_half_even (x * 10)).
  destruct Hk as [Hk0 Hk1]. pose proof Hk0 as Hk0q. pose proof Hk1 as Hk1q.
  rewrite Zle_Qle in Hk0q, Hk1q.
  change (inject_Z 0) with 0%Q in Hk0q. change (inject_Z 1000) with 1000%Q in Hk1q.
  set (k := inject_Z (round_half_even (x * 10))) in *.
  assert (k / 10 == k * (1 # 10))%Q as E by field.
  split; [split; assumption|]. split; [reflexivity|].
  split; [rewrite E; lra|].
  assert (0 <= k / 10 <= inject_Z 100)%Q as Hr
      by (rewrite E; change (inject_Z 100) with 100%Q; lra).
  assert (0 <= k / 10 <= inject_Z (2 ^ 7))%Q as Hr'
      by (rewrite E; change (inject_Z (2 ^ 7)) with 128%Q; lra).
  pose proof (to_double_error (k / 10) 7 ltac:(lia) Hr') as Herr.
  pose proof (to_double_between (k / 10) 100 7 ltac:(lia) ltac:(vm_compute; discriminate)
                Hr) as Hbetween.
  change (2 ^ (7 - 53))%Q with (2 ^ (-46))%Q in Herr.
  change (inject_Z 100) with 100%Q in Hbetween.
  split; [exact Herr | exact Hbetween].
Qed.

End DoubleRounding.

(** ** The statistics action *)

Module Statistics.
Import TaskViewSet Notions.

Lemma count_at_most (p : Task.t -> bool) (l : list Task.t) : count p l <= length l.
Proof. unfold count. apply filter_length_le. Qed.

(** The claim of C9 fails on the code: with 23 of 80 tasks completed the
    percentage is 28.75, which rounds to 28.8 to one decimal place whether
    a tie goes to the even digit or up, and the code returns the double of
    28.7, because the percentage it rounds is the double below 28.75 that
    the floating-point division and multiplication produce. *)
Lemma stats_rounds_the_float_percentage :
  exists s,
    stats 500 1 (Reading.eighty_tasks 23) = Returned s
    /\ Stats.total s = 80
    /\ Stats.completed s = 23
    /\ (percentage 23 80 == 2875 # 100)%Q
    /\ (Reading.half_even_tenths (percentage 23 80) == 288 # 10)%Q
    /\ (Reading.half_up_tenths (percentage 23 80) == 288 # 10)%Q
    /\ Stats.completion_rate s = PyNum.to_double (287 # 10)
    /\ (Stats.completion_rate s < 2871 # 100)%Q
    /\ ~ (Stats.completion_rate s == Reading.half_even_tenths (percentage 23 80))%Q
    /\ ~ (Stats.completion_rate s
          == PyNum.to_double (Reading.half_even_tenths (percentage 23 80)))%Q.
Proof.
  eexists. split; [vm_compute; reflexivity|].
  repeat split; try (vm_compute; reflexivity); vm_compute; discriminate.
Qed.

(** C9, amended: the statistics action returns for every task set; for a
    user without tasks no division takes place and the completion rate is
    0; otherwise the rate is the percentage of completed tasks as computed
    in binary floating point, rounded to one decimal place: it is the
    double nearest to a number of tenths, that number of tenths is within
    0.05 of the floating-point percentage, and the floating-point
    percentage is within [2 ^ -45] of the exact one. *)
Theorem stats_completion_rate (now : Z) (user : nat) (db : DB) :
  exists s,
    stats now user db = Returned s
    /\ Stats.total s = length (get_queryset user db)
    /\ Stats.completed s = completed_count user db
    /\ (get_queryset user db = [] -> (Stats.completion_rate s == 0)%Q)
    /\ (get_queryset user db <> [] ->
        let exact := percentage (Stats.completed s) (Stats.total s) in
        exists (tenths : Z) (computed : Q),
          (0 <= tenths <= 1000)%Z
          /\ Stats.completion_rate s = PyNum.to_double (inject_Z tenths / 10)
          /\ (- 2 ^ (-46) <= Stats.completion_rate s - inject_Z tenths / 10
              <= 2 ^ (-46))%Q
          /\ (- (1 # 20) <= inject_Z tenths / 10 - computed <= 1 # 20)%Q
          /\ (- 2 ^ (-45) <= computed - exact <= 2 ^ (-45))%Q).
Proof.
  unfold stats, completed_count.
  destruct (get_queryset user db) as [|x queryset] eqn:Hq.
  - eexists. split; [reflexivity|].
    split; [reflexivity|]. split; [reflexivity|]. split.
    + intros _. reflexivity.
    + intros H. now destruct H.
  - set (l := x :: queryset).
    set (c := count (fun x => Status_eqb (Task.status x) completed) l).
    assert (c <= length l) as Hc by apply count_at_most.
    assert (0 < length l) as Ht by (simpl; lia).
    eexists. split; [reflexivity|].
    split; [reflexivity|]. split; [reflexivity|]. split; [discriminate|].
    intros _. cbn [Stats.completion_rate Stats.total Stats.completed].
    cbv zeta. fold l. fold c.
    destruct (DoubleRounding.float_percentage c (length l) Hc Ht) as [Hrange Hexact].
    destruct (DoubleRounding.round1_tenths _ Hrange)
      as (tenths & Htenths & Hrate & Hnear & Herr & _).
    exists tenths. eexists. split; [exact Htenths|].
    split; [exact Hrate|]. split; [exact Herr|]. split; [exact Hnear | exact Hexact].
Qed.

Lemma stats_completion_rate_witness :
  exists s,
    stats 500 1 (Sample.db [Sample.task 1 completed (Some 400%Z);
                            Sample.task 2 pending None;
                            Sample.task 3 pending None]) = Returned s
    /\ Stats.total s = 3 /\ Stats.completed s = 1
    /\ exists (tenths : Z) (computed : Q),
         Stats.completion_rate s = PyNum.to_double (inject_Z tenths / 10)
         /\ (- (1 # 20) <= inject_Z tenths / 10 - computed <= 1 # 20)%Q
         /\ (- 2 ^ (-45) <= computed - percentage 1 3 <= 2 ^ (-45))%Q.
Proof.
  destruct (stats_completion_rate 500 1
              (Sample.db [Sample.task 1 completed (Some 400%Z);
                          Sample.task 2 pending None;
                          Sample.task 3 pending None]))
    as (s & Hs & Htotal & Hcompleted & _ & Hrate).
  exists s. split; [exact Hs|].
  assert (Stats.total s = 3) as Ht by (rewrite Htotal; reflexivity).
  assert (Stats.completed s = 1) as Hc by (rewrite Hcompleted; reflexivity).
  split; [exact Ht|]. split; [exact Hc|].
  destruct Hrate as (tenths & computed & _ & Heq & _ & Hnear & Hexact);
    [discriminate|].
  rewrite Hc, Ht in Hexact.
  exists tenths, computed. repeat split; try assumption; apply Hnear || apply Hexact.
Defined.

Example stats_without_tasks :
  stats 500 1 Sample.empty
  = Returned (Stats.make 0 0 0 0 0 0 (PyNum.round1 0)).
Proof. reflexivity. Qed.

End Statistics.

(** ** The literals read by the sample decoder *)

Module RepliesFacts.
Import Replies.

Example float_of_decimal_examples :
  float_of_decimal "5.0" = Some (Finite (inject_Z 50 / inject_Z 10))
  /\ float_of_decimal "0.8" = Some (Finite (inject_Z 8 / inject_Z 10))
  /\ float_of_decimal "NaN" = Some NaN
  /\ float_of_decimal "-inf" = Some (Infinite true)
  /\ float_of_decimal "high" = None.
Proof. repeat split. Qed.

End RepliesFacts.

(** ** The deadline suggestion *)

Module DeadlineSuggestion.
Import Fallback.

Lemma fallback_deadline_days (now : Z) (title : string) (workload : Z) :
  _fallback_deadline_suggestion now title workload
  = Some (now + Z.min (workload + 1) 7 * 86400)%Z.
Proof. reflexivity. Qed.

(** The three values the specification lists for the fallback. *)
Lemma fallback_deadline_examples (now : Z) (title : string) :
  _fallback_deadline_suggestion now title 0 = Some (now + 1 * 86400)%Z
  /\ _fallback_deadline_suggestion now title 6 = Some (now + 7 * 86400)%Z
  /\ _fallback_deadline_suggestion now title 10 = Some (now + 7 * 86400)%Z.
Proof. repeat split. Qed.

Lemma fallback_deadline_capped (now : Z) (title : string) (workload : Z) :
  (0 <= workload)%Z ->
  exists days, (1 <= days <= 7)%Z
               /\ _fallback_deadline_suggestion now title workload
                  = Some (now + timedelta_days days)%Z.
Proof.
  intros H. exists (Z.min (workload + 1) 7). split; [lia | reflexivity].
Qed.

(** A reply that is not the word none and does not parse gives the
    fallback deadline. *)
Lemma suggest_deadline_parse_failure
    api_key post strptime now title description workload reply :
  _call_ai_api api_key post (Prompt.suggest_deadline title description workload)
  = Some reply ->
  reply <> "" ->
  lower (strip reply) <> "none" ->
  strptime (strip reply) = None ->
  suggest_deadline api_key post strptime now title description workload
  = _fallback_deadline_suggestion now title workload.
Proof.
  intros Hcall Hne Hnone Hparse. unfold suggest_deadline.
  rewrite Hcall, Hparse.
  destruct reply as [|c r]; [contradiction|]. simpl PyStr.truthy.
  destruct (String.eqb_spec (lower (strip (String c r))) "none"); [contradiction|].
  reflexivity.
Qed.

(** A reply that parses is the deadline. *)
Lemma suggest_deadline_parsed
    api_key post strptime now title description workload reply deadline :
  _call_ai_api api_key post (Prompt.suggest_deadline title description workload)
  = Some reply ->
  reply <> "" ->
  lower (strip reply) <> "none" ->
  strptime (strip reply) = Some deadline ->
  suggest_deadline api_key post strptime now title description workload
  = Some deadline.
Proof.
  intros Hcall Hne Hnone Hparse. unfold suggest_deadline.
  rewrite Hcall, Hparse.
  destruct reply as [|c r]; [contradiction|]. simpl PyStr.truthy.
  destruct (String.eqb_spec (lower (strip (String c r))) "none"); [contradiction|].
  reflexivity.
Qed.

(** When the call to the service fails, [_call_ai_api] returns nothing,
    whatever the cause. *)
Lemma call_ai_api_failures post prompt key code :
  _call_ai_api None post prompt = None
  /\ _call_ai_api (Some key) Replies.unreachable prompt = None
  /\ (code <> 200%Z ->
      forall body, _call_ai_api (Some key) (fun _ _ => Response code body) prompt = None).
Proof.
  repeat split; try (destruct key; reflexivity).
  intros Hcode body. destruct key; [reflexivity|]. simpl.
  destruct (Z.eqb_spec code 200); [contradiction | reflexivity].
Qed.

(** C2: when the call to the service fails, [suggest_deadline] returns
    the fallback deadline, now + min(open_task_count + 1, 7) days.  The
    code returns no deadline in that case: the branch that answers the
    reply none also takes the missing reply, and the fallback is reached
    only from a reply that does not parse. *)
Theorem suggest_deadline_without_reply_gives_no_deadline
    (api_key : option string) (post : string -> string -> http_result)
    (strptime : string -> option Z) (now : Z)
    (title : string) (description : option string) (workload : Z) :
  _call_ai_api api_key post (Prompt.suggest_deadline title description workload)
  = None ->
  suggest_deadline api_key post strptime now title description workload = None
  /\ _fallback_deadline_suggestion now title workload
     = Some (now + Z.min (workload + 1) 7 * 86400)%Z.
Proof.
  intros Hcall. unfold suggest_deadline. rewrite Hcall. split; reflexivity.
Qed.

Lemma suggest_deadline_without_reply_gives_no_deadline_witness :
  suggest_deadline None Replies.unreachable (fun _ => None) 1000
                   "Finish urgent report ASAP" (Some "") 0 = None
  /\ _fallback_deadline_suggestion 1000 "Finish urgent report ASAP" 0
     = Some (1000 + Z.min (0 + 1) 7 * 86400)%Z.
Proof.
  apply (suggest_deadline_without_reply_gives_no_deadline
           None Replies.unreachable (fun _ => None) 1000
           "Finish urgent report ASAP" (Some "") 0).
  reflexivity.
Defined.

(** An empty reply gives no deadline either. *)
Example suggest_deadline_empty_reply :
  suggest_deadline (Some "key") (Replies.always "") (fun _ => None) 1000
                   "Finish urgent report ASAP" (Some "") 0 = None.
Proof. reflexivity. Qed.

End DeadlineSuggestion.

(** ** The priority score *)

Module PriorityScore.
Import Fallback Notions.

Lemma fallback_priority_in_unit_interval title description :
  (0 <= _fallback_priority_calculation title description <= 1)%Q.
Proof.
  rewrite PriorityFallback.fallback_is_score_of_matches.
  destruct (matches title description) as [|[|n]];
    simpl; split; unfold Qle; simpl; lia.
Qed.

(** A reply that parses is the score, whatever its value. *)
Lemma prioritize_task_parsed
    api_key post py_float title description context_entries reply score :
  _call_ai_api api_key post (Prompt.prioritize_task title description context_entries)
  = Some reply ->
  reply <> "" ->
  py_float (strip reply) = Some score ->
  prioritize_task api_key post py_float title description context_entries = score.
Proof.
  intros Hcall Hne Hparse. unfold prioritize_task. rewrite Hcall.
  destruct reply as [|c r]; [contradiction|]. now rewrite Hparse.
Qed.

(** The claim of C3 fails for a reply that parses to a value outside
    the interval: the value is returned as it is. *)
Lemma prioritize_task_reply_out_of_range :
  score_for_reply_5 = Finite (inject_Z 50 / inject_Z 10)
  /\ (inject_Z 50 / inject_Z 10 == 5)%Q
  /\ ~ Reading.in_unit_interval score_for_reply_5.
Proof.
  split; [reflexivity|]. split; [reflexivity|].
  intros [_ H]. vm_compute in H. apply H. reflexivity.
Qed.

(** C3, amended: [score_priority] returns a float in [0,1] provided the
    reply of the service, when there is one and it parses as a
    floating-point literal, parses to a value in [0,1]; without a reply,
    with an empty one or with one that does not parse, the fallback value
    is returned, which is in [0,1]. *)
Theorem prioritize_task_in_unit_interval
    (api_key : option string) (post : string -> string -> http_result)
    (py_float : string -> option pyfloat)
    (title : string) (description : option string)
    (context_entries : list context_row) :
  (forall reply score,
      _call_ai_api api_key post
        (Prompt.prioritize_task title description context_entries) = Some reply ->
      py_float (strip reply) = Some score ->
      Reading.in_unit_interval score) ->
  Reading.in_unit_interval
    (prioritize_task api_key post py_float title description context_entries).
Proof.
  intros Hrange. unfold prioritize_task.
  destruct (_call_ai_api _ _ _) as [[|c r]|] eqn:Hcall;
    try apply fallback_priority_in_unit_interval.
  destruct (py_float (strip (String c r))) as [score|] eqn:Hparse.
  - exact (Hrange _ _ eq_refl Hparse).
  - apply fallback_priority_in_unit_interval.
Qed.

Lemma prioritize_task_in_unit_interval_witness :
  Reading.in_unit_interval
    (prioritize_task (Some "key") (Replies.always "0.8") Replies.float_of_decimal
                     "Water the plants" (Some "") []).
Proof.
  apply (prioritize_task_in_unit_interval
           (Some "key") (Replies.always "0.8") Replies.float_of_decimal
           "Water the plants" (Some "") []).
  intros reply score Hcall Hparse.
  injection Hcall as <-.
  vm_compute in Hparse. injection Hparse as <-.
  split; unfold Qle; simpl; lia.
Defined.

End PriorityScore.

(** ** Creating a task *)

Module TaskCreation.
Import TaskCreateSerializer Notions.

Lemma get_or_create_category_named now name color db :
  let (db', c) := Store.get_or_create_category now name color db in
  In c (categories db') /\ Category.name c = name /\ tasks db' = tasks db.
Proof.
  unfold Store.get_or_create_category.
  destruct (find _ (categories db)) as [c|] eqn:Hfind.
  - apply find_some in Hfind as [Hin Hname].
    apply String.eqb_eq in Hname. auto.
  - simpl. repeat split. apply in_or_app. right. now left.
Qed.

(** Once the request has a user, the creation of a task returns,
    whatever the service does, unless the score is nan. *)
Lemma create_returns
    api_key post py_float strptime json_loads py_str now user validated_data db :
  prioritize_task api_key post py_float (title validated_data)
                  (field_get (description validated_data) (Some ""))
                  (Store.recent_context now user db) <> NaN ->
  exists db' task,
    create api_key post py_float strptime json_loads py_str now
           (Some user) validated_data db = Returned (db', task)
    /\ In task (tasks db')
    /\ Task.status task = pending
    /\ Task.completed_at task = None.
Proof.
  intros Hscore. unfold create.
  destruct (suggest_categories_and_tags _ _ _ _ _) as [category_name tags].
  destruct (prioritize_task _ _ _ _ _ _) as [x|negative|]; [| |contradiction];
    (destruct (PyJson.truthy category_name);
     [destruct (Store.get_or_create_category _ _ _ _) as [db1 c]|];
     eexists _, _; (split; [reflexivity|]); simpl;
     repeat split; apply in_or_app; right; now left).
Qed.

(** A score that is nan cannot be stored: the creation raises. *)
Lemma create_raises_on_nan
    api_key post py_float strptime json_loads py_str now user validated_data db :
  prioritize_task api_key post py_float (title validated_data)
                  (field_get (description validated_data) (Some ""))
                  (Store.recent_context now user db) = NaN ->
  create api_key post py_float strptime json_loads py_str now
         (Some user) validated_data db = Raised IntegrityError.
Proof.
  intros Hscore. unfold create. rewrite Hscore.
  destruct (suggest_categories_and_tags _ _ _ _ _) as [category_name tags].
  destruct (PyJson.truthy category_name);
    [destruct (Store.get_or_create_category _ _ _ _) as [db1 c]|]; reflexivity.
Qed.

(** The claim of C4 fails: no keyword of the Work bucket occurs in the
    title, so the task is not filed under Work. *)
Lemma report_task_is_not_work :
  ~ yields report_task_created (9 # 10) "Work" ["work"; "professional"].
Proof.
  intros (db' & task & c & Hcreate & _ & _ & _ & _ & _ & Htags).
  vm_compute in Hcreate. injection Hcreate as _ <-.
  discriminate Htags.
Qed.

(** C4, amended: creating a task with title "Finish urgent report ASAP"
    and empty description, with the external service disabled, yields
    priority_score 0.9, category "Personal" and tags
    ["personal", "general"]. *)
Theorem create_report_task_with_service_disabled
    (post : string -> string -> http_result) (py_float : string -> option pyfloat)
    (strptime : string -> option Z) (json_loads : string -> option json)
    (py_str : json -> string) (now : Z) (user : nat)
    (description : field (option string)) (priority : field Priority)
    (due_date : field (option Z)) (category : field (option nat)) (db : DB) :
  field_get description (Some "") = Some "" ->
  yields (create None post py_float strptime json_loads py_str now (Some user)
                 (mk_validated "Finish urgent report ASAP" description
                               priority due_date category) db)
         (9 # 10) "Personal" ["personal"; "general"].
Proof.
  intros Hdescription. unfold yields, create.
  cbn [TaskCreateSerializer.title TaskCreateSerializer.description].
  rewrite Hdescription.
  change (suggest_categories_and_tags None post json_loads
            "Finish urgent report ASAP" (Some ""))
    with (JStr "Personal", PyJson.strings ["personal"; "general"]).
  change (prioritize_task None post py_float "Finish urgent report ASAP" (Some "")
            (Store.recent_context now user db))
    with (Finite (9 # 10)).
  cbn [PyJson.truthy PyStr.truthy to_python].
  pose proof (get_or_create_category_named now "Personal" "#3B82F6" db) as Hcat.
  destruct (Store.get_or_create_category now "Personal" "#3B82F6" db) as [db1 c].
  destruct Hcat as (Hin & Hname & _).
  eexists _, _, c. split; [reflexivity|].
  cbn [tasks categories Task.priority_score Task.category Task.tags].
  repeat split; auto.
  apply in_or_app. right. now left.
Qed.

Lemma create_report_task_with_service_disabled_witness :
  yields report_task_created (9 # 10) "Personal" ["personal"; "general"].
Proof.
  apply (create_report_task_with_service_disabled
           Replies.unreachable Replies.float_of_decimal (fun _ => None)
           Replies.json_loads_atoms (fun _ => "") 1000 1
           (Given (Some "")) Absent Absent Absent Sample.empty).
  reflexivity.
Defined.

End TaskCreation.

(** ** Creating a context entry *)

Module ContextCreation.
Import ContextEntryViewSet Notions.

(** Without a reply the entry is created with the insights of the
    fallback. *)
Lemma perform_create_without_reply api_key post json_loads now user validated_data db :
  _call_ai_api api_key post (analysis_prompt validated_data) = None ->
  exists entry,
    snd (perform_create api_key post json_loads now user validated_data db)
    = Returned entry
    /\ ContextEntry.processed_insights entry
       = ContextFallback._fallback_context_analysis (content validated_data)
    /\ ContextEntry.sentiment_score entry = (5 # 10)%Q.
Proof.
  intros Hcall. unfold perform_create, analyze_context.
  cbn [ContextEntry.content ContextEntry.source_type].
  unfold analysis_prompt in Hcall. rewrite Hcall.
  unfold ContextFallback._fallback_context_analysis.
  cbn [PyJson.get PyJson.dict_get String.eqb Ascii.eqb Bool.eqb bind
       _calculate_sentiment_score _calculate_priority_score lower lower_char
       is_upper nat_of_ascii].
  simpl bind.
  destruct (ContextFallbackFacts.context_priority_label (content validated_data))
    as [E|E]; rewrite E; eexists; split; reflexivity || (split; reflexivity).
Qed.

(** C8: once validation has passed, a creation succeeds whatever the
    completion service does, each suggestion falling back on its own.
    The code does not do this for context entries: a reply that is JSON
    but not an object is returned by [analyze_context] as the analysis,
    and [perform_create] raises when it reads the keywords from it, after
    the entry has been stored without insights. *)
Theorem perform_create_raises_on_json_array
    (api_key : option string) (post : string -> string -> http_result)
    (json_loads : string -> option json) (now : Z) (user : nat)
    (validated_data : validated) (db : DB)
    (reply : string) (items : list json) :
  _call_ai_api api_key post (analysis_prompt validated_data) = Some reply ->
  reply <> "" ->
  json_loads reply = Some (JArr items) ->
  snd (perform_create api_key post json_loads now user validated_data db)
  = Raised AttributeError
  /\ length (context_entries
               (fst (perform_create api_key post json_loads now user
                                    validated_data db)))
     = S (length (context_entries db)).
Proof.
  intros Hcall Hne Hjson. unfold perform_create, analyze_context.
  cbn [ContextEntry.content ContextEntry.source_type].
  unfold analysis_prompt in Hcall. rewrite Hcall.
  destruct reply as [|c r]; [contradiction|]. rewrite Hjson.
  cbn [PyJson.get bind fst snd context_entries].
  split; [reflexivity|].
  rewrite length_app, Nat.add_comm. reflexivity.
Qed.

Lemma perform_create_raises_on_json_array_witness :
  snd (perform_create (Some "key") (Replies.always "[]") Replies.json_loads_atoms
                      1000 1
                      (mk_validated "Lunch with Sam on Friday" Absent Absent)
                      Sample.empty)
  = Raised AttributeError
  /\ length (context_entries
               (fst (perform_create (Some "key") (Replies.always "[]")
                                    Replies.json_loads_atoms 1000 1
                                    (mk_validated "Lunch with Sam on Friday"
                                                  Absent Absent)
                                    Sample.empty)))
     = S (length (context_entries Sample.empty)).
Proof.
  apply (perform_create_raises_on_json_array
           (Some "key") (Replies.always "[]") Replies.json_loads_atoms 1000 1
           (mk_validated "Lunch with Sam on Friday" Absent Absent)
           Sample.empty "[]" []).
  - reflexivity.
  - discriminate.
  - reflexivity.
Defined.

(** The same happens for an object whose sentiment is null. *)
Lemma perform_create_raises_on_null_sentiment
    api_key post json_loads now user validated_data db reply items :
  _call_ai_api api_key post (analysis_prompt validated_data) = Some reply ->
  reply <> "" ->
  json_loads reply = Some (JObj items) ->
  PyJson.dict_get "sentiment" items (JStr "neutral") = JNull ->
  snd (perform_create api_key post json_loads now user validated_data db)
  = Raised AttributeError.
Proof.
  intros Hcall Hne Hjson Hsentiment. unfold perform_create, analyze_context.
  cbn [ContextEntry.content ContextEntry.source_type].
  unfold analysis_prompt in Hcall. rewrite Hcall.
  destruct reply as [|c r]; [contradiction|]. rewrite Hjson.
  cbn [PyJson.get bind snd]. rewrite Hsentiment. reflexivity.
Qed.

End ContextCreation.

(** * Further properties of the code *)

(** ** White space around a title *)

Module TitleValidation.
Import Notions Shape.

Lemma lstrip_blank (s : string) : lstrip s = "" <-> blank s = true.
Proof.
  unfold blank. induction s as [|c s IH]; simpl; [tauto|].
  destruct (is_space c); simpl; [exact IH|]. split; discriminate.
Qed.

Lemma lstrip_first (s : string) (c : ascii) :
  first_char (lstrip s) = Some c -> is_space c = false.
Proof.
  induction s as [|d s IH]; simpl; [discriminate|].
  destruct (is_space d) eqn:Hd; [exact IH|].
  simpl. intros H. injection H as <-. exact Hd.
Qed.

Lemma lstrip_fixed (s : string) :
  (forall c, first_char s = Some c -> is_space c = false) -> lstrip s = s.
Proof.
  destruct s as [|c s]; simpl; [reflexivity|].
  intros H. now rewrite (H c eq_refl).
Qed.

Lemma rstrip_blank (s : string) : rstrip s = "" <-> blank s = true.
Proof.
  unfold blank. induction s as [|c s IH]; simpl; [tauto|].
  destruct (rstrip s) as [|d r].
  - destruct (is_space c); simpl.
    + split; [intros _; now apply IH | reflexivity].
    + split; discriminate.
  - split; [discriminate|]. intros H. apply andb_true_iff in H as [_ H].
    apply IH in H. discriminate.
Qed.

Lemma rstrip_first (s : string) (c : ascii) :
  first_char (rstrip s) = Some c -> first_char s = Some c.
Proof.
  destruct s as [|d s]; simpl; [discriminate|].
  destruct (rstrip s); [destruct (is_space d)|]; simpl; auto; discriminate.
Qed.

Lemma rstrip_last (s : string) (c : ascii) :
  last_char (rstrip s) = Some c -> is_space c = false.
Proof.
  induction s as [|d s IH]; simpl; [discriminate|].
  destruct (rstrip s) as [|e r].
  - destruct (is_space d) eqn:Hd; simpl; [discriminate|].
    intros H. injection H as <-. exact Hd.
  - exact IH.
Qed.

Lemma rstrip_idempotent (s : string) : rstrip (rstrip s) = rstrip s.
Proof.
  induction s as [|d s IH]; simpl; [reflexivity|].
  destruct (rstrip s) as [|e r] eqn:E.
  - destruct (is_space d) eqn:Hd; simpl; [reflexivity|]. now rewrite Hd.
  - change (rstrip (String d (String e r)))
      with (match rstrip (String e r) with
            | EmptyString => if is_space d then EmptyString else String d EmptyString
            | x => String d x
            end).
    now rewrite IH.
Qed.

Lemma strip_blank (s : string) : strip s = "" <-> blank s = true.
Proof.
  unfold strip. split.
  - intros H. apply rstrip_blank in H. apply lstrip_blank.
    destruct (lstrip s) as [|c r] eqn:E; [reflexivity|].
    unfold blank in H. simpl in H.
    rewrite (lstrip_first s c) in H by now rewrite E. discriminate.
  - intros H. apply lstrip_blank in H. now rewrite H.
Qed.

Lemma strip_idempotent (s : string) : strip (strip s) = strip s.
Proof.
  unfold strip. rewrite lstrip_fixed.
  - apply rstrip_idempotent.
  - intros c H. apply rstrip_first in H. now apply lstrip_first in H.
Qed.

(** A title that [validate_title] accepts is the title without the white
    space around it: it is not empty, it neither starts nor ends with a
    white-space character, and validating it again returns it unchanged.
    Both serializers validate the title this way. *)
Theorem validate_title_accepts_stripped (value title : string) :
  TaskCreateSerializer.validate_title value = Returned title ->
  title = strip value
  /\ title <> ""
  /\ (forall c, first_char title = Some c -> is_space c = false)
  /\ (forall c, last_char title = Some c -> is_space c = false)
  /\ TaskCreateSerializer.validate_title title = Returned title
  /\ TaskSerializer.validate_title value = Returned title.
Proof.
  unfold TaskCreateSerializer.validate_title, TaskSerializer.validate_title.
  destruct (strip value) as [|c r] eqn:E; [discriminate|].
  intros H. injection H as <-.
  split; [reflexivity|]. split; [discriminate|].
  rewrite <- E. split; [|split; [|split]].
  - intros d H. unfold strip in H. apply rstrip_first in H.
    now apply lstrip_first in H.
  - intros d H. now apply rstrip_last in H.
  - rewrite strip_idempotent. rewrite E. reflexivity.
  - reflexivity.
Qed.

Lemma validate_title_accepts_stripped_witness :
  "Buy milk" = strip "  Buy milk  "
  /\ "Buy milk" <> ""
  /\ (forall c, first_char "Buy milk" = Some c -> is_space c = false)
  /\ (forall c, last_char "Buy milk" = Some c -> is_space c = false)
  /\ TaskCreateSerializer.validate_title "Buy milk" = Returned "Buy milk"
  /\ TaskSerializer.validate_title "  Buy milk  " = Returned "Buy milk".
Proof.
  apply (validate_title_accepts_stripped "  Buy milk  " "Buy milk").
  reflexivity.
Defined.

(** [validate_title] rejects a title exactly when all its characters are
    white space (the empty title among them), with the message of the
    serializer. *)
Theorem validate_title_rejects_blank (value : string) :
  TaskCreateSerializer.validate_title value
  = Raised (ValidationError "Title cannot be empty.")
  <-> blank value = true.
Proof.
  rewrite <- strip_blank. unfold TaskCreateSerializer.validate_title.
  destruct (strip value); split; intros H; try reflexivity; discriminate.
Qed.

(** [validate_due_date] accepts a missing date and a date that is not
    before now, the present moment included, and returns it unchanged; it
    rejects every earlier date. *)
Theorem validate_due_date_boundary (now : Z) (value : option Z) :
  (TaskSerializer.validate_due_date now value = Returned value
   <-> (forall d, value = Some d -> (now <= d)%Z))
  /\ (TaskSerializer.validate_due_date now value
      = Raised (ValidationError "Due date cannot be in the past.")
      <-> exists d, value = Some d /\ (d < now)%Z).
Proof.
  unfold TaskSerializer.validate_due_date.
  destruct value as [d|].
  - destruct (Z.ltb_spec d now); split; split; intros H'; try discriminate;
      try reflexivity.
    + specialize (H' d eq_refl). lia.
    + exists d. split; [reflexivity | assumption].
    + intros d' E. injection E as <-. assumption.
    + destruct H' as (d' & E & Hlt). injection E as <-. lia.
  - split; split; intros H; try reflexivity; try discriminate.
    destruct H as (d & E & _). discriminate.
Qed.

End TitleValidation.

(** ** Rows of the task table *)

Module TaskRows.
Import TaskViewSet Notions Shape.

Lemma replace_task_pks (x : Task.t) (l : list Task.t) :
  map Task.pk (Store.replace_task x l) = map Task.pk l.
Proof.
  unfold Store.replace_task. induction l as [|y l IH]; simpl; [reflexivity|].
  rewrite IH. f_equal.
  destruct (Nat.eqb_spec (Task.pk y) (Task.pk x)); congruence.
Qed.

Lemma replace_task_keeps_others (x y : Task.t) (l : list Task.t) :
  In y l -> Task.pk y <> Task.pk x -> In y (Store.replace_task x l).
Proof.
  intros Hin Hpk. unfold Store.replace_task. apply in_map_iff.
  exists y. split; [|exact Hin].
  destruct (Nat.eqb_spec (Task.pk y) (Task.pk x)); [contradiction | reflexivity].
Qed.

Lemma get_object_found (user pk : nat) (db : DB) (task : Task.t) :
  get_object user pk db = Returned task ->
  In task (tasks db) /\ Task.pk task = pk /\ Task.user task = user.
Proof.
  unfold get_object, get_queryset.
  destruct (find _ _) as [x|] eqn:Hfind; [|discriminate].
  intros H. injection H as <-.
  apply find_some in Hfind as [Hin Hpk].
  apply filter_In in Hin as [Hin Huser].
  apply Nat.eqb_eq in Hpk, Huser. auto.
Qed.

(** Reading back the row that was saved. *)
Lemma get_object_after_save (now : Z) (user pk : nat) (db : DB) (old x : Task.t) :
  get_object user pk db = Returned old ->
  Task.pk x = pk -> Task.user x = user ->
  get_object user pk (fst (Store.save_task now x db)) = Returned (Store.stamp now x).
Proof.
  intros Hget Hpk Huser.
  unfold get_object, get_queryset in *.
  unfold Store.save_task, Store.replace_task. cbn [fst tasks].
  assert (Task.pk (Store.stamp now x) = pk) as Hpk' by exact Hpk.
  assert (Task.user (Store.stamp now x) = user) as Huser' by exact Huser.
  set (x' := Store.stamp now x) in *. clearbody x'.
  induction (tasks db) as [|a l IH]; [discriminate|].
  cbn [map filter].
  destruct (Nat.eqb_spec (Task.pk a) (Task.pk x')) as [E|E].
  - rewrite Huser', Nat.eqb_refl. cbn [find]. rewrite Hpk', Nat.eqb_refl.
    reflexivity.
  - cbn [filter] in Hget.
    destruct (Task.user a =? user)%nat.
    + cbn [find] in *. rewrite Hpk' in E.
      destruct (Nat.eqb_spec (Task.pk a) pk); [contradiction|].
      exact (IH Hget).
    + exact (IH Hget).
Qed.

(** A user cannot toggle the task of somebody else: when every task with
    that key belongs to other users, the action answers 404. *)
Theorem toggle_status_of_foreign_task (now : Z) (user pk : nat) (db : DB) :
  (forall t, In t (tasks db) -> Task.pk t = pk -> Task.user t <> user) ->
  toggle_status now user pk db = Raised Http404.
Proof.
  intros Hforeign. unfold toggle_status.
  destruct (get_object user pk db) as [task|e] eqn:Hget.
  - apply get_object_found in Hget as (Hin & Hpk & Huser).
    exfalso. exact (Hforeign task Hin Hpk Huser).
  - unfold get_object in Hget. destruct (find _ _); [discriminate|].
    injection Hget as <-. reflexivity.
Qed.

Lemma toggle_status_of_foreign_task_witness :
  toggle_status 500 2 7 (Sample.db [Sample.task 7 pending None]) = Raised Http404.
Proof.
  apply (toggle_status_of_foreign_task 500 2 7 (Sample.db [Sample.task 7 pending None])).
  intros t [<-|[]] _. simpl. discriminate.
Defined.

(** The action touches one row: the keys of the table, the other tasks and
    the other tables are as before. *)
Theorem toggle_status_touches_one_row
    (now : Z) (user pk : nat) (db db' : DB) (task' : Task.t) :
  toggle_status now user pk db = Returned (db', task') ->
  map Task.pk (tasks db') = map Task.pk (tasks db)
  /\ categories db' = categories db
  /\ context_entries db' = context_entries db
  /\ Task.pk task' = pk
  /\ Task.updated_at task' = now
  /\ (forall y, In y (tasks db) -> Task.pk y <> pk -> In y (tasks db')).
Proof.
  unfold toggle_status.
  destruct (get_object user pk db) as [task|e] eqn:Hget; [|discriminate].
  apply get_object_found in Hget as (Hin & Hpk & Huser).
  cbn [bind]. unfold Store.save_task. intros H. injection H as <- <-.
  cbn [tasks categories context_entries].
  assert (Task.pk (Store.stamp now (toggled task)) = pk) as Hpk'.
  { unfold toggled. destruct (Task.status task); exact Hpk. }
  repeat split.
  - apply replace_task_pks.
  - exact Hpk'.
  - intros y Hy Hne. apply replace_task_keeps_others; [exact Hy | congruence].
Qed.

Lemma toggle_status_touches_one_row_witness :
  map Task.pk [Task.with_updated_at 500 (Sample.task 7 in_progress None);
               Sample.task 8 pending None] = [7; 8]
  /\ In (Sample.task 8 pending None)
        [Task.with_updated_at 500 (Sample.task 7 in_progress None);
         Sample.task 8 pending None].
Proof.
  pose proof (toggle_status_touches_one_row
                500 1 7
                (Sample.db [Sample.task 7 in_progress None; Sample.task 8 pending None])
                (Sample.db [Task.with_updated_at 500 (Sample.task 7 in_progress None);
                            Sample.task 8 pending None])
                (Task.with_updated_at 500 (Sample.task 7 in_progress None))
                eq_refl) as (Hpks & _ & _ & _ & _ & Hothers).
  split; [exact Hpks|].
  apply Hothers; [right; left; reflexivity | discriminate].
Defined.

(** Toggling twice gives the task back: after the second action the task
    is the original one but for the time stamp of the update. *)
Theorem toggle_status_twice
    (now1 now2 : Z) (user pk : nat) (db : DB) (task : Task.t) :
  get_object user pk db = Returned task ->
  exists db1 task1 db2,
    toggle_status now1 user pk db = Returned (db1, task1)
    /\ Task.status task1 = flipped (Task.status task)
    /\ toggle_status now2 user pk db1 = Returned (db2, Task.with_updated_at now2 task).
Proof.
  intros Hget.
  pose proof (get_object_found _ _ _ _ Hget) as (_ & Hpk & Huser).
  assert (Task.pk (toggled task) = pk /\ Task.user (toggled task) = user) as [Hpk' Huser'].
  { unfold toggled. destruct (Task.status task); auto. }
  pose proof (get_object_after_save now1 user pk db task (toggled task)
                Hget Hpk' Huser') as Hget1.
  set (db1 := fst (Store.save_task now1 (toggled task) db)) in *.
  exists db1, (Store.stamp now1 (toggled task)),
    (fst (Store.save_task now2 (toggled (Store.stamp now1 (toggled task))) db1)).
  unfold toggle_status. rewrite Hget, Hget1. cbn [bind].
  split; [reflexivity|]. split.
  - unfold toggled. destruct (Task.status task) eqn:E; simpl; try reflexivity; exact E.
  - unfold Store.save_task. cbn [fst]. do 2 f_equal.
    unfold Store.stamp, toggled.
    destruct task as [? ? ? st ? ? ? ? ? ? ? ? ? ? ? ?]; destruct st; reflexivity.
Qed.

Lemma toggle_status_twice_witness :
  exists db1 task1 db2,
    toggle_status 500 1 7 (Sample.db [Sample.task 7 pending None])
    = Returned (db1, task1)
    /\ Task.status task1 = completed
    /\ toggle_status 600 1 7 db1
       = Returned (db2, Task.with_updated_at 600 (Sample.task 7 pending None)).
Proof.
  apply (toggle_status_twice 500 600 1 7 (Sample.db [Sample.task 7 pending None])
                             (Sample.task 7 pending None)).
  reflexivity.
Defined.

End TaskRows.

(** ** Updating and creating tasks *)

Module TaskLifecycle.
Import Notions Shape.

(** An update that carries a status leaves the task with that status and
    with [completed_at] set to now for completed (also when the task was
    completed before) and cleared for every other status; an update
    without a status changes neither.  The key, the creation time and the
    score are never changed, and the update time becomes now. *)
Theorem update_sets_completed_at
    (now : Z) (instance : Task.t) (validated_data : TaskSerializer.validated)
    (db : DB) :
  let task' := snd (TaskSerializer.update now instance validated_data db) in
  (forall s, TaskSerializer.new_status validated_data = Given s ->
             Task.status task' = s
             /\ Task.completed_at task'
                = match s with completed => Some now | _ => None end)
  /\ (TaskSerializer.new_status validated_data = Absent ->
      Task.status task' = Task.status instance
      /\ Task.completed_at task' = Task.completed_at instance)
  /\ Task.pk task' = Task.pk instance
  /\ Task.created_at task' = Task.created_at instance
  /\ Task.priority_score task' = Task.priority_score instance
  /\ Task.updated_at task' = now.
Proof.
  cbv zeta. unfold TaskSerializer.update, TaskSerializer.completed_at_entry.
  cbn [snd Store.save_task Store.stamp Task.with_updated_at Task.status
       Task.completed_at Task.pk Task.created_at Task.priority_score
       Task.updated_at].
  split; [intros s E; rewrite E; split; [reflexivity | destruct s; reflexivity]|].
  split; [intros E; rewrite E; split; reflexivity|].
  repeat split.
Qed.

Lemma update_sets_completed_at_witness :
  Task.status
    (snd (TaskSerializer.update 900 (Sample.task 7 completed (Some 400%Z))
            (TaskSerializer.mk_validated Absent Absent (Given completed)
                                         Absent Absent Absent)
            (Sample.db [Sample.task 7 completed (Some 400%Z)])))
  = completed
  /\ Task.completed_at
       (snd (TaskSerializer.update 900 (Sample.task 7 completed (Some 400%Z))
               (TaskSerializer.mk_validated Absent Absent (Given completed)
                                            Absent Absent Absent)
               (Sample.db [Sample.task 7 completed (Some 400%Z)])))
     = Some 900%Z.
Proof.
  pose proof (update_sets_completed_at
                900 (Sample.task 7 completed (Some 400%Z))
                (TaskSerializer.mk_validated Absent Absent (Given completed)
                                             Absent Absent Absent)
                (Sample.db [Sample.task 7 completed (Some 400%Z)])) as H.
  cbv zeta in H. destruct H as (H & _).
  exact (H completed eq_refl).
Defined.

Lemma fresh_is_new (pks : list nat) : ~ In (Store.fresh pks) pks.
Proof.
  assert (forall x, In x pks -> x <= fold_right Nat.max 0 pks) as Hmax.
  { induction pks as [|y pks IH]; simpl; [tauto|].
    intros x [->|Hin]; [lia|]. specialize (IH x Hin). lia. }
  intros Hin. apply Hmax in Hin. unfold Store.fresh in Hin. lia.
Qed.

Lemma find_app_none {A : Type} (f : A -> bool) (l l' : list A) :
  find f l = None -> find f (l ++ l')%list = find f l'.
Proof.
  induction l as [|x l IH]; simpl; [reflexivity|].
  destruct (f x); [discriminate | exact IH].
Qed.

Lemma NoDup_snoc {A : Type} (l : list A) (x : A) :
  NoDup l -> ~ In x l -> NoDup (l ++ [x])%list.
Proof.
  intros Hl Hx. induction Hl as [|y l Hy Hl IH]; simpl.
  - constructor; [tauto | constructor].
  - constructor.
    + rewrite in_app_iff. simpl. intros [H|[H|[]]]; [contradiction|].
      subst. apply Hx. now left.
    + apply IH. intros H. apply Hx. now right.
Qed.

(** [get_or_create] finds what it created: on the store it returns, the
    same call returns the same category and stores nothing; the category
    has the name asked for; the other tables are untouched, and at most one
    row is added, at the end. *)
Theorem get_or_create_category_is_idempotent
    (now now' : Z) (name color color' : string) (db : DB) :
  let db1 := fst (Store.get_or_create_category now name color db) in
  let c := snd (Store.get_or_create_category now name color db) in
  Store.get_or_create_category now' name color' db1 = (db1, c)
  /\ Category.name c = name
  /\ In c (categories db1)
  /\ tasks db1 = tasks db
  /\ context_entries db1 = context_entries db
  /\ (categories db1 = categories db \/ categories db1 = (categories db ++ [c])%list).
Proof.
  cbv zeta. unfold Store.get_or_create_category.
  destruct (find _ (categories db)) as [c|] eqn:Hfind; cbn [fst snd].
  - rewrite Hfind. apply find_some in Hfind as [Hin Hname].
    apply String.eqb_eq in Hname. repeat split; auto.
  - cbn [categories tasks context_entries Category.name].
    rewrite (find_app_none _ _ _ Hfind). cbn [find Category.name].
    rewrite String.eqb_refl. repeat split; auto.
    apply in_or_app. right. now left.
Qed.

(** [get_or_create] keeps the names of the categories distinct. *)
Theorem get_or_create_category_keeps_names_unique
    (now : Z) (name color : string) (db : DB) :
  unique_category_names db ->
  unique_category_names (fst (Store.get_or_create_category now name color db)).
Proof.
  unfold unique_category_names, Store.get_or_create_category.
  intros Hunique.
  destruct (find _ (categories db)) as [c|] eqn:Hfind; cbn [fst]; [exact Hunique|].
  cbn [categories]. rewrite map_app. cbn [map Category.name].
  apply NoDup_snoc; [exact Hunique|].
  intros Hin. apply in_map_iff in Hin as (c & Hname & Hin).
  pose proof (find_none _ _ Hfind c Hin) as H. cbn beta in H.
  rewrite Hname, String.eqb_refl in H. discriminate.
Qed.

Lemma get_or_create_category_keeps_names_unique_witness :
  unique_category_names
    (fst (Store.get_or_create_category 1000 "Work" "#3B82F6" Sample.empty)).
Proof.
  apply (get_or_create_category_keeps_names_unique 1000 "Work" "#3B82F6" Sample.empty).
  constructor.
Defined.

Section Create.

Variable api_key : option string.
Variable post : string -> string -> http_result.
Variable py_float : string -> option pyfloat.
Variable strptime : string -> option Z.
Variable json_loads : string -> option json.
Variable py_str : json -> string.
Variable now : Z.

Let create := TaskCreateSerializer.create api_key post py_float strptime json_loads
                                          py_str now.

(** A creation adds one task at the end of the table, under a key no
    task had, owned by the user of the request, pending and not completed,
    with the validated title; the tasks that were there and the context
    entries are untouched, keys stay distinct and so do category names. *)
Theorem create_appends_a_fresh_task
    (user : nat) (validated_data : TaskCreateSerializer.validated)
    (db db' : DB) (task : Task.t) :
  create (Some user) validated_data db = Returned (db', task) ->
  tasks db' = (tasks db ++ [task])%list
  /\ ~ In (Task.pk task) (map Task.pk (tasks db))
  /\ Task.user task = user
  /\ Task.title task = TaskCreateSerializer.title validated_data
  /\ Task.status task = pending
  /\ Task.completed_at task = None
  /\ Task.created_at task = now
  /\ context_entries db' = context_entries db
  /\ (unique_task_pks db -> unique_task_pks db')
  /\ (unique_category_names db -> unique_category_names db').
Proof.
  unfold create, TaskCreateSerializer.create.
  destruct (suggest_categories_and_tags _ _ _ _ _) as [category_name tags].
  set (score := prioritize_task _ _ _ _ _ _).
  destruct (PyJson.truthy category_name).
  - pose proof (get_or_create_category_is_idempotent
                  now now (TaskCreateSerializer.to_python py_str category_name)
                  "#3B82F6" "#3B82F6" db) as Hgoc.
    pose proof (get_or_create_category_keeps_names_unique
                  now (TaskCreateSerializer.to_python py_str category_name)
                  "#3B82F6" db) as Hnames.
    cbv zeta in Hgoc.
    destruct (Store.get_or_create_category _ _ _ db) as [db1 c].
    cbn [fst snd] in Hgoc, Hnames.
    destruct Hgoc as (_ & _ & _ & Htasks & Hentries & _).
    intros H.
    assert (db' = mk_DB (tasks db1 ++ [task])%list (categories db1)
                        (context_entries db1)
            /\ Task.pk task = Store.fresh (map Task.pk (tasks db1))
            /\ Task.user task = user
            /\ Task.title task = TaskCreateSerializer.title validated_data
            /\ Task.status task = pending
            /\ Task.completed_at task = None
            /\ Task.created_at task = now)
      as (-> & Hpk & Huser & Htitle & Hstatus & Hcompleted & Hcreated).
    { destruct score; try discriminate; injection H as <- <-; repeat split. }
    rewrite Htasks in Hpk |- *.
    cbn [tasks categories context_entries].
    rewrite Hpk. repeat split; auto.
    + apply fresh_is_new.
    + unfold unique_task_pks. cbn [tasks]. rewrite map_app.
      intros Hu. apply NoDup_snoc; [exact Hu|]. cbn [map]. rewrite Hpk.
      apply fresh_is_new.
  - intros H.
    assert (db' = mk_DB (tasks db ++ [task])%list (categories db)
                        (context_entries db)
            /\ Task.pk task = Store.fresh (map Task.pk (tasks db))
            /\ Task.user task = user
            /\ Task.title task = TaskCreateSerializer.title validated_data
            /\ Task.status task = pending
            /\ Task.completed_at task = None
            /\ Task.created_at task = now)
      as (-> & Hpk & Huser & Htitle & Hstatus & Hcompleted & Hcreated).
    { destruct score; try discriminate; injection H as <- <-; repeat split. }
    cbn [tasks categories context_entries].
    rewrite Hpk. repeat split; auto.
    + apply fresh_is_new.
    + unfold unique_task_pks. cbn [tasks]. rewrite map_app.
      intros Hu. apply NoDup_snoc; [exact Hu|]. cbn [map]. rewrite Hpk.
      apply fresh_is_new.
Qed.

(** Without a request in the serializer context nothing is created. *)
Lemma create_requires_user (validated_data : TaskCreateSerializer.validated) (db : DB) :
  create None validated_data db = Raised (ValidationError "User is required.").
Proof. reflexivity. Qed.

End Create.

Lemma create_appends_a_fresh_task_witness :
  exists db' task,
    report_task_created = Returned (db', task)
    /\ tasks db' = [task]
    /\ Task.user task = 1
    /\ Task.status task = pending.
Proof.
  destruct (TaskCreation.create_returns
              None Replies.unreachable Replies.float_of_decimal (fun _ => None)
              Replies.json_loads_atoms (fun _ => "") 1000 1
              (TaskCreateSerializer.mk_validated "Finish urgent report ASAP"
                 (Given (Some "")) Absent Absent Absent)
              Sample.empty ltac:(discriminate)) as (db' & task & Hcreate & _).
  exists db', task. split; [exact Hcreate|].
  pose proof (create_appends_a_fresh_task
                None Replies.unreachable Replies.float_of_decimal (fun _ => None)
                Replies.json_loads_atoms (fun _ => "") 1000 1 _ _ _ _ Hcreate)
    as (Htasks & _ & Huser & _ & Hstatus & _).
  repeat split; assumption.
Defined.

End TaskLifecycle.

(** ** The window of recent context *)

Module RecentContext.
Import Notions Shape.

Lemma insert_by_created_at_perm (x : ContextEntry.t) (l : list ContextEntry.t) :
  Permutation (x :: l) (Store.insert_by_created_at x l).
Proof.
  induction l as [|y l IH]; simpl; [reflexivity|].
  destruct (_ <? _)%Z; [reflexivity|].
  rewrite perm_swap. now apply perm_skip.
Qed.

Lemma insert_by_created_at_sorted (x : ContextEntry.t) (l : list ContextEntry.t) :
  StronglySorted newer_or_equal l ->
  StronglySorted newer_or_equal (Store.insert_by_created_at x l).
Proof.
  induction 1 as [|y l Hl IH Hy]; simpl.
  - constructor; constructor.
  - destruct (Z.ltb_spec (ContextEntry.created_at y) (ContextEntry.created_at x)).
    + constructor; [constructor; assumption|].
      constructor; [unfold newer_or_equal; lia|].
      eapply Forall_impl; [|exact Hy]. unfold newer_or_equal. intros z Hz. lia.
    + constructor; [exact IH|].
      eapply Permutation_Forall; [apply insert_by_created_at_perm|].
      constructor; [unfold newer_or_equal; lia | exact Hy].
Qed.

Lemma newest_first_perm (l : list ContextEntry.t) :
  Permutation l (Store.newest_first l).
Proof.
  unfold Store.newest_first. induction l as [|x l IH]; simpl; [reflexivity|].
  rewrite <- insert_by_created_at_perm. now apply perm_skip.
Qed.

(** The ordering of [ContextEntry]: the same entries, newest first. *)
Theorem newest_first_sorts (l : list ContextEntry.t) :
  Permutation l (Store.newest_first l)
  /\ StronglySorted newer_or_equal (Store.newest_first l).
Proof.
  split; [apply newest_first_perm|].
  unfold Store.newest_first. induction l as [|x l IH]; simpl.
  - constructor.
  - now apply insert_by_created_at_sorted.
Qed.

Lemma filter_sorted {A : Type} (R : A -> A -> Prop) (p : A -> bool) (l : list A) :
  StronglySorted R l -> StronglySorted R (filter p l).
Proof.
  induction 1 as [|x l Hl IH Hx]; simpl; [constructor|].
  destruct (p x); [|exact IH].
  constructor; [exact IH|].
  rewrite Forall_forall in *. intros y Hy. apply filter_In in Hy as [Hy _]. auto.
Qed.

Lemma firstn_subset {A : Type} (n : nat) (l : list A) (x : A) :
  In x (firstn n l) -> In x l.
Proof.
  revert n. induction l as [|y l IH]; intros [|n]; simpl; try tauto.
  intros [H|H]; [now left | right; eauto].
Qed.

Lemma firstn_sorted {A : Type} (R : A -> A -> Prop) (n : nat) (l : list A) :
  StronglySorted R l -> StronglySorted R (firstn n l).
Proof.
  intros H. revert n. induction H as [|x l Hl IH Hx]; intros [|n]; simpl;
    try constructor; [apply IH|].
  rewrite Forall_forall in *. intros y Hy. apply Hx. eapply firstn_subset; eauto.
Qed.

Lemma filter_perm_length {A : Type} (p : A -> bool) (l l' : list A) :
  Permutation l l' -> length (filter p l) = length (filter p l').
Proof.
  induction 1 as [|x l l' _ IH|x y l|l l' l'' _ IH1 _ IH2]; simpl.
  - reflexivity.
  - destruct (p x); simpl; congruence.
  - destruct (p x), (p y); reflexivity.
  - congruence.
Qed.

Lemma is_recent_spec now user e : is_recent now user e = true <-> recent_for now user e.
Proof.
  unfold is_recent, recent_for, Fallback.timedelta_days, Fallback.SECONDS_PER_DAY.
  rewrite andb_true_iff, Nat.eqb_eq, Z.leb_le. reflexivity.
Qed.

(** The context handed to the suggestion engine: at most ten rows, each
    the content and source of an entry of the user from the last seven
    days, newest first; when the user has at most ten such entries, all of
    them are there. *)
Theorem recent_context_window (now : Z) (user : nat) (db : DB) :
  exists es,
    Store.recent_context now user db
    = map (fun e => mk_context_row (ContextEntry.content e) (ContextEntry.source_type e)) es
    /\ length es <= 10
    /\ (forall e, In e es -> In e (context_entries db) /\ recent_for now user e)
    /\ StronglySorted newer_or_equal es
    /\ (length (filter (is_recent now user) (context_entries db)) <= 10 ->
        forall e, In e (context_entries db) -> recent_for now user e -> In e es).
Proof.
  unfold Store.recent_context.
  change (fun e => ((ContextEntry.user e =? user)%nat
                    && (now - Fallback.timedelta_days 7 <=? ContextEntry.created_at e)%Z))
    with (is_recent now user).
  pose proof (newest_first_sorts (context_entries db)) as [Hperm Hsorted].
  set (sorted := Store.newest_first (context_entries db)) in *.
  exists (firstn 10 (filter (is_recent now user) sorted)).
  split; [reflexivity|]. split; [apply firstn_le_length|].
  split; [|split].
  - intros e He. apply firstn_subset in He. apply filter_In in He as [He Hr].
    split; [|now apply is_recent_spec].
    eapply Permutation_in; [symmetry; exact Hperm | exact He].
  - apply firstn_sorted, filter_sorted, Hsorted.
  - intros Hfew e He Hr.
    rewrite firstn_all2.
    + apply filter_In. split; [|now apply is_recent_spec].
      eapply Permutation_in; [exact Hperm | exact He].
    + rewrite <- (filter_perm_length _ _ _ Hperm). exact Hfew.
Qed.

End RecentContext.

(** ** The counts of the statistics action *)

Module StatisticsCounts.
Import TaskViewSet Notions.

Lemma count_le_length (p : Task.t -> bool) (l : list Task.t) : count p l <= length l.
Proof. unfold count. apply filter_length_le. Qed.

Lemma count_by_status (l : list Task.t) :
  count (fun x => Status_eqb (Task.status x) completed) l
  + count (fun x => Status_eqb (Task.status x) pending) l
  + count (fun x => Status_eqb (Task.status x) in_progress) l
  <= length l.
Proof.
  unfold count. induction l as [|x l IH]; simpl; [lia|].
  destruct (Task.status x); simpl; lia.
Qed.

Lemma overdue_are_open (now : Z) (l : list Task.t) :
  count (is_overdue now) l
  <= count (fun x => Status_eqb (Task.status x) pending) l
     + count (fun x => Status_eqb (Task.status x) in_progress) l.
Proof.
  unfold count, is_overdue. induction l as [|x l IH]; simpl; [lia|].
  destruct (Task.due_date x) as [d|]; [destruct (d <? now)%Z|];
    destruct (Task.status x); simpl; lia.
Qed.

Lemma round_half_even_between (x : Q) (lo hi : Z) :
  (inject_Z lo <= x <= inject_Z hi)%Q ->
  (lo <= PyNum.round_half_even x <= hi)%Z.
Proof.
  intros [Hlo Hhi].
  pose proof (Qfloor_le x) as Hf. pose proof (Qlt_floor x) as Hc.
  assert (lo <= Qfloor x)%Z as Hlof.
  { rewrite <- (Qfloor_Z lo). now apply Qfloor_resp_le. }
  assert (Qfloor x <= hi)%Z as Hfhi.
  { rewrite <- (Qfloor_Z hi). now apply Qfloor_resp_le. }
  assert ((0 < x - inject_Z (Qfloor x))%Q -> (Qfloor x + 1 <= hi)%Z) as Hup.
  { intros Hpos. destruct (Z.eq_dec (Qfloor x) hi) as [E|E]; [|lia].
    rewrite E in Hpos. lra. }
  unfold PyNum.round_half_even.
  destruct (Qcompare_spec (x - inject_Z (Qfloor x)) (1 # 2)) as [E|E|E].
  - destruct (Z.even (Qfloor x)); [lia|]. split; [lia|]. apply Hup. lra.
  - lia.
  - split; [lia|]. apply Hup. lra.
Qed.

Lemma percentage_between (c t : nat) :
  c <= t -> 0 < t -> (0 <= percentage c t <= 100)%Q.
Proof.
  intros Hct Ht. unfold percentage.
  assert (0 < inject_Z (Z.of_nat t))%Q as Htq.
  { change 0%Q with (inject_Z 0). rewrite <- Zlt_Qlt. lia. }
  assert (0 <= inject_Z (Z.of_nat c))%Q as Hcq.
  { change 0%Q with (inject_Z 0). rewrite <- Zle_Qle. lia. }
  assert (inject_Z (Z.of_nat c) <= inject_Z (Z.of_nat t))%Q as Hle.
  { rewrite <- Zle_Qle. lia. }
  set (q := (inject_Z (Z.of_nat c) / inject_Z (Z.of_nat t))%Q).
  assert (0 <= q)%Q as Hq0.
  { apply Qle_shift_div_l; [exact Htq|]. lra. }
  assert (q <= 1)%Q as Hq1.
  { apply Qle_shift_div_r; [exact Htq|]. lra. }
  lra.
Qed.

(** What the statistics promise about each other: the three status counts
    together do not exceed the total, every overdue task is pending or in
    progress, the high-priority count does not exceed the total, and the
    completion rate lies between 0 and 100. *)
Theorem stats_are_consistent (now : Z) (user : nat) (db : DB) (s : Stats.t) :
  stats now user db = Returned s ->
  Stats.completed s + Stats.pending s + Stats.in_progress s <= Stats.total s
  /\ Stats.overdue s <= Stats.pending s + Stats.in_progress s
  /\ Stats.high_priority s <= Stats.total s
  /\ (0 <= Stats.completion_rate s <= 100)%Q.
Proof.
  unfold stats.
  set (queryset := get_queryset user db).
  assert (exists rate,
             (if (0 <? length queryset)%nat
              then q <- PyNum.truediv
                          (count (fun x => Status_eqb (Task.status x) completed) queryset)
                          (length queryset) ;;
                   Returned (PyNum.mul q 100)
              else Returned 0%Q) = Returned rate
             /\ (0 <= rate <= 100)%Q) as (rate & -> & Hrate).
  { destruct (length queryset) as [|n] eqn:Hlen; simpl.
    - exists 0%Q. split; [reflexivity | lra].
    - eexists. split; [reflexivity|].
      apply (DoubleRounding.float_percentage _ (S n)); [|lia].
      rewrite <- Hlen. apply count_le_length. }
  cbn [bind]. intros H. injection H as <-.
  cbn [Stats.completed Stats.pending Stats.in_progress Stats.total Stats.overdue
       Stats.high_priority Stats.completion_rate].
  split; [apply count_by_status|]. split; [apply overdue_are_open|].
  split; [apply count_le_length|].
  destruct (DoubleRounding.round1_tenths rate Hrate) as (_ & _ & _ & _ & _ & H).
  exact H.
Qed.

Lemma stats_are_consistent_witness :
  exists s,
    stats 500 1 (Sample.db [Sample.task 1 completed (Some 400%Z);
                            Sample.task 2 pending None;
                            Sample.task 3 cancelled None]) = Returned s
    /\ Stats.completed s + Stats.pending s + Stats.in_progress s <= Stats.total s
    /\ (0 <= Stats.completion_rate s <= 100)%Q.
Proof.
  eexists. split; [reflexivity|].
  pose proof (stats_are_consistent
                500 1 (Sample.db [Sample.task 1 completed (Some 400%Z);
                                  Sample.task 2 pending None;
                                  Sample.task 3 cancelled None]) _ eq_refl)
    as (Hcounts & _ & _ & Hrate).
  split; [exact Hcounts | exact Hrate].
Defined.

(** The statistics of a user do not depend on the tasks of the others. *)
Theorem stats_ignore_other_users (now : Z) (user : nat) (db : DB) :
  stats now user db
  = stats now user (mk_DB (get_queryset user db) (categories db) (context_entries db)).
Proof.
  unfold stats.
  assert (get_queryset user (mk_DB (get_queryset user db) (categories db)
                                   (context_entries db))
          = get_queryset user db) as ->; [|reflexivity].
  unfold get_queryset. cbn [tasks].
  induction (tasks db) as [|x l IH]; simpl; [reflexivity|].
  destruct (Task.user x =? user)%nat eqn:E; simpl; [rewrite E|]; congruence.
Qed.

End StatisticsCounts.

(** ** The filters of [my_tasks] *)

Module MyTasks.
Import TaskViewSet Notions Shape.

Lemma filter_if_In (param : option string) (p : string -> Task.t -> bool)
    (l : list Task.t) (x : Task.t) :
  In x (filter_if param p l)
  <-> In x l /\ match param with
                | Some (String c r) => p (String c r) x = true
                | _ => True
                end.
Proof.
  unfold filter_if. destruct param as [[|c r]|]; try tauto.
  apply filter_In.
Qed.

(** A task is in the answer of [my_tasks] exactly when it is a task of
    the user that has the status and the priority asked for and whose title
    contains the search text, letter case ignored; a parameter that is
    missing or empty does not filter. *)
Theorem my_tasks_selects (user : nat) (params : query_params) (db : DB) (x : Task.t) :
  In x (my_tasks user params db)
  <-> In x (tasks db)
      /\ Task.user x = user
      /\ passes (status_param params) (status_name (Task.status x))
      /\ passes (priority_param params) (priority_name (Task.priority x))
      /\ passes_search (search_param params) (Task.title x).
Proof.
  unfold my_tasks. rewrite !filter_if_In. unfold get_queryset.
  rewrite filter_In, Nat.eqb_eq.
  assert (match search_param params with
          | Some (String c r) => icontains (String c r) x = true
          | _ => True
          end <-> passes_search (search_param params) (Task.title x)) as ->.
  { unfold passes_search, icontains.
    destruct (search_param params) as [[|c r]|]; try tauto. apply contains_Occurs. }
  assert (forall param value,
             match param with
             | Some (String c r) => String.eqb value (String c r) = true
             | _ => True
             end <-> passes param value) as Hpasses.
  { intros [[|c r]|] value; simpl; try tauto. apply String.eqb_eq. }
  rewrite !Hpasses. tauto.
Qed.

(** A status or priority that is not one of the four names selects
    nothing. *)
Theorem my_tasks_unknown_status (user : nat) (params : query_params) (db : DB)
    (value : string) :
  status_param params = Some value ->
  value <> "" ->
  ~ In value ["pending"; "in_progress"; "completed"; "cancelled"] ->
  my_tasks user params db = [].
Proof.
  intros Hparam Hne Hunknown.
  destruct (my_tasks user params db) as [|x l] eqn:E; [reflexivity|].
  assert (In x (my_tasks user params db)) as Hin by (rewrite E; now left).
  apply my_tasks_selects in Hin as (_ & _ & Hstatus & _).
  rewrite Hparam in Hstatus. destruct value as [|c r]; [contradiction|].
  simpl in Hstatus. exfalso. apply Hunknown. rewrite <- Hstatus.
  destruct (Task.status x); simpl; tauto.
Qed.

Lemma my_tasks_unknown_status_witness :
  my_tasks 1 (mk_query_params (Some "done") None None)
           (Sample.db [Sample.task 7 completed (Some 400%Z)]) = [].
Proof.
  apply (my_tasks_unknown_status
           1 (mk_query_params (Some "done") None None)
           (Sample.db [Sample.task 7 completed (Some 400%Z)]) "done").
  - reflexivity.
  - discriminate.
  - simpl. intros [H|[H|[H|[H|[]]]]]; discriminate.
Defined.

End MyTasks.

(** ** The suggestion engine *)

Module SuggestionEngine.
Import Fallback Notions Shape.

(** [_call_ai_api] hands out a reply only when a key is configured, the
    key is not empty and the service answered with status 200. *)
Theorem call_ai_api_needs_key_and_200
    (api_key : option string) (post : string -> string -> http_result)
    (prompt reply : string) :
  _call_ai_api api_key post prompt = Some reply
  <-> exists key, api_key = Some key /\ key <> ""
                  /\ post key prompt = Response 200 (Some reply).
Proof.
  unfold _call_ai_api. split.
  - destruct api_key as [[|c k]|]; try discriminate.
    destruct (post (String c k) prompt) as [|code body] eqn:Hpost; [discriminate|].
    destruct (Z.eqb_spec code 200) as [->|]; [|discriminate].
    intros ->. exists (String c k). repeat split; [discriminate | exact Hpost].
  - intros (key & -> & Hne & Hpost). destruct key as [|c k]; [contradiction|].
    rewrite Hpost. reflexivity.
Qed.

(** [suggest_deadline] gives no deadline exactly when there is no reply,
    when the reply is empty, or when the reply without the white space
    around it is the word none in any letter case. *)
Theorem suggest_deadline_none_iff
    (api_key : option string) (post : string -> string -> http_result)
    (strptime : string -> option Z) (now : Z)
    (title : string) (description : option string) (workload : Z) :
  suggest_deadline api_key post strptime now title description workload = None
  <-> match _call_ai_api api_key post
              (Prompt.suggest_deadline title description workload) with
      | None => True
      | Some reply => reply = "" \/ lower (strip reply) = "none"
      end.
Proof.
  unfold suggest_deadline.
  destruct (_call_ai_api _ _ _) as [[|c r]|]; simpl; try tauto.
  destruct (String.eqb_spec (lower (strip (String c r))) "none") as [E|E]; simpl.
  - tauto.
  - destruct (strptime _); unfold _fallback_deadline_suggestion;
      split; try discriminate; intros [H|H]; [discriminate | contradiction
                                             | discriminate | contradiction].
Qed.

(** The fallback deadline lies one to seven days after now and never
    comes earlier for a larger workload. *)
Theorem fallback_deadline_window (now : Z) (title title' : string) (w w' : Z) :
  (0 <= w <= w')%Z ->
  exists d d',
    _fallback_deadline_suggestion now title w = Some d
    /\ _fallback_deadline_suggestion now title' w' = Some d'
    /\ (now + 86400 <= d <= d')%Z
    /\ (d' <= now + 7 * 86400)%Z.
Proof.
  intros H. unfold _fallback_deadline_suggestion, timedelta_days, SECONDS_PER_DAY.
  eexists _, _. split; [reflexivity|]. split; [reflexivity|]. lia.
Qed.

Lemma fallback_deadline_window_witness :
  exists d d',
    _fallback_deadline_suggestion 1000 "Pay rent" 2 = Some d
    /\ _fallback_deadline_suggestion 1000 "Pay rent" 9 = Some d'
    /\ (1000 + 86400 <= d <= d')%Z
    /\ (d' <= 1000 + 7 * 86400)%Z.
Proof.
  apply (fallback_deadline_window 1000 "Pay rent" "Pay rent" 2 9). lia.
Defined.

Lemma fallback_description_not_empty (title : string) (description : option string) :
  _fallback_description_enhancement title description <> "".
Proof.
  unfold _fallback_description_enhancement.
  destruct description as [[|c d]|]; discriminate.
Qed.

(** The enhanced description is empty only when the service replied with
    white space alone; without a usable reply it is the description itself
    when there is one, and a text that names the title otherwise. *)
Theorem enhance_task_description_empty_iff
    (api_key : option string) (post : string -> string -> http_result)
    (title : string) (description : option string)
    (context_entries : list context_row) :
  let reply := _call_ai_api api_key post
                 (Prompt.enhance_task_description title description context_entries) in
  let result := enhance_task_description api_key post title description context_entries in
  (result = "" <-> exists r, reply = Some r /\ r <> "" /\ blank r = true)
  /\ (reply = None \/ reply = Some "" ->
      result = match description with
               | Some (String c d) => String c d
               | _ => "Task: " ++ title ++ ". Please add more details as needed."
               end).
Proof.
  cbv zeta. unfold enhance_task_description.
  destruct (_call_ai_api _ _ _) as [[|c r]|].
  - split.
    + split.
      * intros H. now apply fallback_description_not_empty in H.
      * intros (r & E & Hne & _). injection E as <-. contradiction.
    + intros _. reflexivity.
  - split.
    + rewrite TitleValidation.strip_blank. split.
      * intros H. exists (String c r). repeat split; [discriminate | exact H].
      * intros (r' & E & _ & H). injection E as <-. exact H.
    + intros [H|H]; discriminate.
  - split.
    + split.
      * intros H. now apply fallback_description_not_empty in H.
      * intros (r & E & _). discriminate.
    + intros _. reflexivity.
Qed.

Lemma enhance_task_description_empty_iff_witness :
  enhance_task_description None Replies.unreachable "Pay rent" (Some "") []
  = "Task: Pay rent. Please add more details as needed.".
Proof.
  pose proof (enhance_task_description_empty_iff
                None Replies.unreachable "Pay rent" (Some "") []) as H.
  cbv zeta in H. destruct H as (_ & H).
  apply H. left. reflexivity.
Defined.

(** The category and tags: the entries of a reply that is a JSON object,
    with the category General and no tags for a missing key; the fallback
    pair when there is no reply, when the reply is not JSON or when it is
    JSON but not an object. *)
Theorem suggest_categories_and_tags_results
    (api_key : option string) (post : string -> string -> http_result)
    (json_loads : string -> option json)
    (title : string) (description : option string) :
  let reply := _call_ai_api api_key post
                 (Prompt.suggest_categories_and_tags title description) in
  let result := suggest_categories_and_tags api_key post json_loads title description in
  let fallback := (JStr (fst (_fallback_categorization title)),
                   PyJson.strings (snd (_fallback_categorization title))) in
  (forall r items, reply = Some r -> r <> "" -> json_loads r = Some (JObj items) ->
                   result = (PyJson.dict_get "category" items (JStr "General"),
                             PyJson.dict_get "tags" items (JArr [])))
  /\ (forall r, reply = Some r -> json_loads r = None -> result = fallback)
  /\ (forall r value, reply = Some r -> json_loads r = Some value ->
                      (forall items, value <> JObj items) -> result = fallback)
  /\ (reply = None \/ reply = Some "" -> result = fallback).
Proof.
  cbv zeta. unfold suggest_categories_and_tags.
  destruct (_fallback_categorization title) as [category tags]. cbn [fst snd].
  destruct (_call_ai_api _ _ _) as [[|c r]|].
  - split; [|repeat split; reflexivity].
    intros r' items E Hne _. injection E as <-. contradiction.
  - split; [|split; [|split]].
    + intros r' items E _ Hjson. injection E as <-. now rewrite Hjson.
    + intros r' E Hjson. injection E as <-. now rewrite Hjson.
    + intros r' value E Hjson Hobj. injection E as <-. rewrite Hjson.
      destruct value; try reflexivity. exfalso. exact (Hobj items eq_refl).
    + intros [H|H]; discriminate.
  - repeat split; try reflexivity; intros; discriminate.
Qed.

Lemma suggest_categories_and_tags_results_witness :
  suggest_categories_and_tags (Some "key") (Replies.always "{}")
                              Replies.json_loads_atoms "Team meeting" (Some "")
  = (JStr "General", JArr []).
Proof.
  pose proof (suggest_categories_and_tags_results
                (Some "key") (Replies.always "{}") Replies.json_loads_atoms
                "Team meeting" (Some "")) as H.
  cbv zeta in H. destruct H as (H & _).
  apply (H "{}" []); [reflexivity | discriminate | reflexivity].
Defined.

End SuggestionEngine.

(** ** The text the priority fallback reads *)

Module PriorityText.
Import Fallback Notions Shape.

Lemma lower_app (a b : string) : lower (a ++ b) = lower a ++ lower b.
Proof. induction a as [|c a IH]; simpl; [reflexivity | now rewrite IH]. Qed.

Lemma append_assoc (a b c : string) : (a ++ b) ++ c = a ++ (b ++ c).
Proof. induction a as [|x a IH]; simpl; [reflexivity | now rewrite IH]. Qed.

Lemma Occurs_inside (w s before after : string) :
  Occurs w s -> Occurs w (before ++ s ++ after).
Proof.
  intros (p & q & ->). exists (before ++ p), (q ++ after).
  now rewrite !append_assoc.
Qed.

Lemma filter_length_monotone {A : Type} (p q : A -> bool) (l : list A) :
  (forall x, In x l -> p x = true -> q x = true) ->
  length (filter p l) <= length (filter q l).
Proof.
  induction l as [|x l IH]; simpl; intros H; [lia|].
  assert (length (filter p l) <= length (filter q l)) as Hl.
  { apply IH. intros y Hy. apply H. now right. }
  destruct (p x) eqn:Hp.
  - rewrite (H x (or_introl eq_refl) Hp). simpl. lia.
  - destruct (q x); simpl; lia.
Qed.

(** Text put in front of the title or after the description never lowers
    the fallback score. *)
Theorem fallback_priority_grows_with_text
    (before title description after : string) :
  (_fallback_priority_calculation title (Some description)
   <= _fallback_priority_calculation (before ++ title) (Some (description ++ after)))%Q.
Proof.
  rewrite !PriorityFallback.fallback_is_score_of_matches.
  apply PriorityFallback.score_of_matches_monotone.
  unfold matches, urgency_count, priority_text. cbn [fmt].
  apply filter_length_monotone. intros w _ Hw.
  apply contains_Occurs in Hw. apply contains_Occurs.
  replace ((before ++ title) ++ " " ++ description ++ after)
    with (before ++ (title ++ " " ++ description) ++ after)
    by (rewrite !append_assoc; reflexivity).
  rewrite !lower_app. apply Occurs_inside. now rewrite <- !lower_app.
Qed.

(** The fallback score does not depend on the letter case of the title
    and of the description. *)
Theorem fallback_priority_ignores_case (title description : string) :
  _fallback_priority_calculation (lower title) (Some (lower description))
  = _fallback_priority_calculation title (Some description).
Proof.
  unfold _fallback_priority_calculation, priority_text. cbn [fmt].
  rewrite !lower_app, !lower_idempotent. reflexivity.
Qed.

End PriorityText.

(** ** The words of a context entry *)

Module ContextWords.
Import ContextFallback Notions Shape.

Lemma Occurs_later (w s : string) (c : ascii) : Occurs w s -> Occurs w (String c s).
Proof. intros (p & q & ->). now exists (String c p), q. Qed.

Lemma scan_occurs (s : string) :
  (exists t, s = fst (scan s) ++ t)
  /\ Forall (fun w => Occurs w s) (snd (scan s)).
Proof.
  induction s as [|c s [[t Ht] IH]]; simpl.
  - split; [now exists "" | constructor].
  - destruct (scan s) as [run rest]; cbn [fst snd] in *.
    assert (Forall (fun w => Occurs w (String c s)) rest) as Hrest.
    { eapply Forall_impl; [|exact IH]. intros w. apply Occurs_later. }
    destruct (is_word_char c); cbn [fst snd].
    + split; [exists t; simpl; now rewrite <- Ht | exact Hrest].
    + split; [now exists (String c s)|].
      destruct run as [|d run]; simpl; [exact Hrest|].
      constructor; [|exact Hrest].
      apply Occurs_later. exists "", t. exact Ht.
Qed.

Lemma word_runs_occur (s w : string) : In w (word_runs s) -> Occurs w s.
Proof.
  unfold word_runs. pose proof (scan_occurs s) as [[t Ht] Hrest].
  destruct (scan s) as [run rest]; cbn [fst snd] in *.
  rewrite Forall_forall in Hrest.
  destruct run as [|d run]; simpl; [apply Hrest|].
  intros [<-|H]; [exists "", t; exact Ht | now apply Hrest].
Qed.

(** The topics and keywords of the context fallback: at most five topics,
    which are the first of the at most ten keywords; every keyword is a
    piece of the lowercased content, at least four characters long, made of
    word characters, and no stop word. *)
Theorem fallback_keywords_come_from_content (context_text : string) :
  exists keywords,
    _fallback_context_analysis context_text
    = JObj [ ("topics", PyJson.strings (firstn 5 keywords));
             ("deadlines", JArr []);
             ("priorities", JArr [JStr (context_priority context_text)]);
             ("sentiment", JStr "neutral");
             ("action_items", JArr []);
             ("keywords", PyJson.strings keywords) ]
    /\ length keywords <= 10
    /\ (forall k, In k keywords ->
                  Occurs k (lower context_text)
                  /\ 4 <= String.length k
                  /\ all_chars is_word_char k = true
                  /\ ~ In k stop_words).
Proof.
  exists (firstn 10 (context_keywords context_text)).
  split; [|split].
  - unfold _fallback_context_analysis. cbv zeta.
    rewrite firstn_firstn. reflexivity.
  - apply firstn_le_length.
  - intros k Hk. apply RecentContext.firstn_subset in Hk.
    apply ContextFallbackFacts.context_keywords_spec in Hk
      as (Hlen & Hchars & Hstop & Hrun).
    repeat split; auto. now apply word_runs_occur.
Qed.

End ContextWords.

(** ** The scores of a context entry *)

Module ContextScores.
Import ContextEntryViewSet Notions Shape.

Lemma existsb_is_str (s : string) (l : list json) :
  existsb (PyJson.is_str s) l = true <-> In (JStr s) l.
Proof.
  rewrite existsb_exists. split.
  - intros (x & Hin & Hx). destruct x; try discriminate.
    apply String.eqb_eq in Hx. now subst.
  - intros Hin. exists (JStr s). split; [exact Hin | apply String.eqb_refl].
Qed.

(** For an analysis whose priorities are a list of labels, the score is
    0.8 when the label high or urgent is in the list, otherwise 0.6 when
    important is, and 0.4 when none of them is; an analysis without the
    key counts as an empty list. *)
Theorem priority_score_of_labels (items : list (string * json)) (labels : list json) :
  PyJson.dict_get "priorities" items (JArr []) = JArr labels ->
  exists score,
    _calculate_priority_score (JObj items) = Returned score
    /\ (In (JStr "high") labels \/ In (JStr "urgent") labels -> score = (8 # 10)%Q)
    /\ (~ In (JStr "high") labels -> ~ In (JStr "urgent") labels ->
        In (JStr "important") labels -> score = (6 # 10)%Q)
    /\ (~ In (JStr "high") labels -> ~ In (JStr "urgent") labels ->
        ~ In (JStr "important") labels -> score = (4 # 10)%Q).
Proof.
  intros Hlabels. unfold _calculate_priority_score.
  cbn [PyJson.get bind]. rewrite Hlabels. cbn [PyJson.str_in bind].
  pose proof (existsb_is_str "high" labels) as Hh.
  pose proof (existsb_is_str "urgent" labels) as Hu.
  pose proof (existsb_is_str "important" labels) as Hi.
  destruct (existsb (PyJson.is_str "high") labels); cbn [bind].
  - eexists. split; [reflexivity|]. split; [reflexivity|].
    split; intros Hn; exfalso; apply Hn; now apply Hh.
  - destruct (existsb (PyJson.is_str "urgent") labels); cbn [bind].
    + eexists. split; [reflexivity|]. split; [reflexivity|].
      split; intros _ Hn; exfalso; apply Hn; now apply Hu.
    + destruct (existsb (PyJson.is_str "important") labels).
      * eexists. split; [reflexivity|]. split; [|split].
        -- intros [H|H]; [apply Hh in H | apply Hu in H]; discriminate.
        -- reflexivity.
        -- intros _ _ Hn. exfalso. apply Hn. now apply Hi.
      * eexists. split; [reflexivity|]. split; [|split].
        -- intros [H|H]; [apply Hh in H | apply Hu in H]; discriminate.
        -- intros _ _ H. apply Hi in H. discriminate.
        -- reflexivity.
Qed.

Lemma priority_score_of_labels_witness :
  exists score,
    _calculate_priority_score
      (JObj [("priorities", JArr [JStr "normal"; JStr "urgent"])]) = Returned score
    /\ score = (8 # 10)%Q.
Proof.
  destruct (priority_score_of_labels
              [("priorities", JArr [JStr "normal"; JStr "urgent"])]
              [JStr "normal"; JStr "urgent"] eq_refl)
    as (score & Hscore & Hhigh & _).
  exists score. split; [exact Hscore|].
  apply Hhigh. right. right. left. reflexivity.
Defined.

Lemma sentiment_score_values (sentiment : json) (score : Q) :
  _calculate_sentiment_score sentiment = Returned score ->
  In score [(8 # 10)%Q; (2 # 10)%Q; (5 # 10)%Q].
Proof.
  unfold _calculate_sentiment_score. destruct sentiment; try discriminate.
  intros H. injection H as <-.
  destruct (String.eqb _ "positive"); [simpl; auto|].
  destruct (String.eqb _ "negative"); [simpl; auto|].
  destruct (String.eqb _ "neutral"); simpl; auto.
Qed.

Lemma priority_score_values (analysis : json) (score : Q) :
  _calculate_priority_score analysis = Returned score ->
  In score [(8 # 10)%Q; (6 # 10)%Q; (4 # 10)%Q].
Proof.
  unfold _calculate_priority_score.
  destruct (PyJson.get analysis "priorities" (JArr [])) as [priorities|]; [|discriminate].
  cbn [bind].
  destruct (PyJson.str_in "high" priorities) as [[|]|]; cbn [bind]; try discriminate.
  - intros H. injection H as <-. simpl; auto.
  - destruct (PyJson.str_in "urgent" priorities) as [[|]|]; cbn [bind];
      try discriminate.
    + intros H. injection H as <-. simpl; auto.
    + destruct (PyJson.str_in "important" priorities) as [[|]|]; cbn [bind];
        try discriminate; intros H; injection H as <-; simpl; auto.
Qed.

Section PerformCreate.

Variable api_key : option string.
Variable post : string -> string -> http_result.
Variable json_loads : string -> option json.
Variable now : Z.

(** When [perform_create] returns, one entry was added to the table: it
    belongs to the user, has the content sent, a sentiment score of 0.8,
    0.2 or 0.5 and a priority score of 0.8, 0.6 or 0.4, and its insights
    are the analysis the scores were computed from; the tasks and the
    categories are untouched. *)
Theorem perform_create_stores_scored_entry
    (user : nat) (validated_data : validated) (db : DB) (entry : ContextEntry.t) :
  snd (perform_create api_key post json_loads now user validated_data db)
  = Returned entry ->
  let db' := fst (perform_create api_key post json_loads now user validated_data db) in
  In entry (context_entries db')
  /\ length (context_entries db') = S (length (context_entries db))
  /\ tasks db' = tasks db /\ categories db' = categories db
  /\ ContextEntry.user entry = user
  /\ ContextEntry.content entry = content validated_data
  /\ ~ In (ContextEntry.pk entry) (map ContextEntry.pk (context_entries db))
  /\ In (ContextEntry.sentiment_score entry) [(8 # 10)%Q; (2 # 10)%Q; (5 # 10)%Q]
  /\ In (ContextEntry.priority_score entry) [(8 # 10)%Q; (6 # 10)%Q; (4 # 10)%Q]
  /\ _calculate_priority_score (ContextEntry.processed_insights entry)
     = Returned (ContextEntry.priority_score entry).
Proof.
  unfold perform_create.
  cbn [ContextEntry.content ContextEntry.source_type ContextEntry.pk
       ContextEntry.source_title ContextEntry.created_at].
  set (analysis := analyze_context _ _ _ _ _).
  destruct (PyJson.get analysis "keywords" (JArr [])) as [keywords|];
    [|discriminate].
  cbn [bind].
  destruct (PyJson.get analysis "sentiment" (JStr "neutral")) as [sentiment|];
    [|discriminate].
  cbn [bind].
  destruct (_calculate_sentiment_score sentiment) as [sentiment_score|] eqn:Hs;
    [|discriminate].
  cbn [bind].
  destruct (_calculate_priority_score analysis) as [priority_score|] eqn:Hp;
    [|discriminate].
  cbn [bind fst snd]. intros H. injection H as <-.
  cbn [tasks categories context_entries ContextEntry.user ContextEntry.content
       ContextEntry.pk ContextEntry.sentiment_score ContextEntry.priority_score
       ContextEntry.processed_insights].
  repeat split.
  - unfold Store.replace_entry. apply in_map_iff.
    eexists. split; [|apply in_or_app; right; left; reflexivity].
    cbn [ContextEntry.pk]. now rewrite Nat.eqb_refl.
  - unfold Store.replace_entry. rewrite length_map, length_app. simpl. lia.
  - apply TaskLifecycle.fresh_is_new.
  - exact (sentiment_score_values _ _ Hs).
  - exact (priority_score_values _ _ Hp).
  - exact Hp.
Qed.

(** With no reply from the service a context entry is always created: its
    insights are those of the fallback, its sentiment score is 0.5, and its
    priority score is 0.8 when one of the seven urgency words of the
    fallback occurs in the lowercased content and 0.4 otherwise. *)
Theorem perform_create_falls_back
    (user : nat) (validated_data : validated) (db : DB) :
  _call_ai_api api_key post (analysis_prompt validated_data) = None ->
  exists entry,
    snd (perform_create api_key post json_loads now user validated_data db)
    = Returned entry
    /\ ContextEntry.processed_insights entry
       = ContextFallback._fallback_context_analysis (content validated_data)
    /\ ContextEntry.sentiment_score entry = (5 # 10)%Q
    /\ ((exists w, In w ContextFallback.context_urgency_words
                   /\ Occurs w (lower (content validated_data))) ->
        ContextEntry.priority_score entry = (8 # 10)%Q)
    /\ (~ (exists w, In w ContextFallback.context_urgency_words
                     /\ Occurs w (lower (content validated_data))) ->
        ContextEntry.priority_score entry = (4 # 10)%Q).
Proof.
  intros Hcall. unfold perform_create, analyze_context.
  cbn [ContextEntry.content ContextEntry.source_type].
  unfold analysis_prompt in Hcall. rewrite Hcall.
  unfold ContextFallback._fallback_context_analysis.
  pose proof (ContextFallbackFacts.context_priority_high (content validated_data))
    as Hhigh.
  destruct (ContextFallbackFacts.context_priority_label (content validated_data))
    as [E|E]; rewrite E in *.
  - eexists. split; [reflexivity|]. split; [reflexivity|]. split; [reflexivity|].
    split; [reflexivity|]. intros Hn. exfalso. apply Hn. now apply Hhigh.
  - eexists. split; [reflexivity|]. split; [reflexivity|]. split; [reflexivity|].
    split; [|reflexivity]. intros H. apply Hhigh in H. discriminate.
Qed.

End PerformCreate.

Lemma perform_create_stores_scored_entry_witness :
  exists entry,
    snd (perform_create None Replies.unreachable Replies.json_loads_atoms 1000 1
                        (mk_validated "Urgent: call the bank" Absent Absent)
                        Sample.empty) = Returned entry
    /\ ContextEntry.user entry = 1
    /\ In (ContextEntry.priority_score entry) [(8 # 10)%Q; (6 # 10)%Q; (4 # 10)%Q].
Proof.
  eexists. split; [reflexivity|].
  pose proof (perform_create_stores_scored_entry
                None Replies.unreachable Replies.json_loads_atoms 1000 1
                (mk_validated "Urgent: call the bank" Absent Absent)
                Sample.empty _ eq_refl) as H.
  cbv zeta in H. destruct H as (_ & _ & _ & _ & Huser & _ & _ & _ & Hscore & _).
  split; [exact Huser | exact Hscore].
Defined.

Lemma perform_create_falls_back_witness :
  exists entry,
    snd (perform_create None Replies.unreachable Replies.json_loads_atoms 1000 1
                        (mk_validated "Urgent: call the bank" Absent Absent)
                        Sample.empty) = Returned entry
    /\ ContextEntry.sentiment_score entry = (5 # 10)%Q
    /\ ContextEntry.priority_score entry = (8 # 10)%Q.
Proof.
  destruct (perform_create_falls_back
              None Replies.unreachable Replies.json_loads_atoms 1000 1
              (mk_validated "Urgent: call the bank" Absent Absent)
              Sample.empty eq_refl)
    as (entry & Hentry & _ & Hsentiment & Hhigh & _).
  exists entry. split; [exact Hentry|]. split; [exact Hsentiment|].
  apply Hhigh. exists "urgent". split; [left; reflexivity|].
  apply contains_Occurs. reflexivity.
Defined.

End ContextScores.

(** ** Suggestions without a task *)

Module AdHocSuggestions.
Import ContextEntryViewSet Notions Shape.

Section Suggestions.

Variable api_key : option string.
Variable post : string -> string -> http_result.
Variable py_float : string -> option pyfloat.
Variable strptime : string -> option Z.
Variable json_loads : string -> option json.
Variable py_str : json -> string.
Variable now : Z.

(** A request without a title, or with an empty one, is answered with
    status 400. *)
Theorem ai_suggestions_requires_title (user : nat) (description : field string) (db : DB) :
  ai_suggestions api_key post py_float strptime json_loads now user
                 Absent description db = Response400 "Title is required"
  /\ ai_suggestions api_key post py_float strptime json_loads now user
                    (Given "") description db = Response400 "Title is required".
Proof. split; reflexivity. Qed.


End Suggestions.


End AdHocSuggestions.
